(** * Bi-directional note links: a model of [src/server.js]

    The server keeps a JSON document [{ notes, templates }] on disk.  Every
    request reads the whole document, runs one handler on the in-memory
    copy and, when the handler mutates it, writes the whole document back.
    Notes embed reference markers [[[id]]] in their content; [parseLinks]
    extracts them and [updateLinks] maintains the derived [links] and
    [backlinks] arrays.

    JavaScript data is modelled as follows.
    - strings are [string]; the regular expression has no [u] flag, so it
      works character by character;
    - a [Set] is the list of its members in insertion order;
    - an object used as a map ([db.notes], [db.templates]) is an association
      list in insertion order, which is the order [Object.values] uses for
      keys that are not array indices (identifiers here are UUIDs);
    - [undefined] is [None];
    - a thrown exception is the [Throw] result of a handler, turned into a
      500 response by the [catch] of the request handler. *)

From Equations Require Import Equations.
From Stdlib Require Import List String Ascii Bool Arith Lia.
Import ListNotations.
Local Open Scope string_scope.
Local Open Scope list_scope.

(** ** Sets of strings, in insertion order *)

Module JsSet.

(** [set.has(x)] *)
Fixpoint has (x : string) (s : list string) : bool :=
  match s with
  | [] => false
  | y :: t => if String.eqb y x then true else has x t
  end.

(** [set.add(x)]: a member keeps its place, a new value goes last. *)
Definition add (x : string) (s : list string) : list string :=
  if has x s then s else s ++ [x].

(** [new Set(array)] *)
Definition of_array (l : list string) : list string :=
  fold_left (fun s x => add x s) l [].

End JsSet.

(** ** The link extractor *)

(** The character class [[a-fA-F0-9-]]. *)
Definition link_char (c : ascii) : bool :=
  let n := nat_of_ascii c in
  (((97 <=? n) && (n <=? 102)) || ((65 <=? n) && (n <=? 70))
   || ((48 <=? n) && (n <=? 57)) || (n =? 45))%nat.

(** The greedy [+]: the longest run of class characters and what follows. *)
Fixpoint span_link (s : string) : string * string :=
  match s with
  | String c t =>
      if link_char c
      then let (g, r) := span_link t in (String c g, r)
      else (EmptyString, s)
  | EmptyString => (EmptyString, EmptyString)
  end.

(** [LINK_REGEX] tried at the current position only: the capture group and
    the text after the match.  A shorter run than the greedy one is followed
    by a class character, never by a closing bracket, so backtracking finds
    nothing more. *)
Definition match_here (s : string) : option (string * string) :=
  match s with
  | String "[" (String "[" t) =>
      match span_link t with
      | (String c g, String "]" (String "]" r)) => Some (String c g, r)
      | _ => None
      end
  | _ => None
  end.

(** [LINK_REGEX.exec(content)] from [lastIndex]: the leftmost match at or
    after the current position.  The text left after the match stands for
    the new [lastIndex]; [None] is [null] (and resets [lastIndex] to 0, so
    that every call of [parseLinks] starts at the beginning). *)
Fixpoint exec (s : string) : option (string * string) :=
  match match_here s with
  | Some m => Some m
  | None =>
      match s with
      | String _ t => exec t
      | EmptyString => None
      end
  end.

Lemma span_link_length s :
  String.length (snd (span_link s)) <= String.length s.
Proof.
  induction s as [|c t IH]; simpl; [lia|].
  destruct (link_char c); simpl; [|lia].
  destruct (span_link t); simpl in *; lia.
Qed.

Lemma match_here_length s g r :
  match_here s = Some (g, r) -> String.length r < String.length s.
Proof.
  unfold match_here.
  destruct s as [|c0 [|c1 t]]; try discriminate.
  - destruct c0 as [[] [] [] [] [] [] [] []]; discriminate.
  - intros H. pose proof (span_link_length t) as Hl.
    destruct c0 as [[] [] [] [] [] [] [] []]; try discriminate.
    destruct c1 as [[] [] [] [] [] [] [] []]; try discriminate.
    destruct (span_link t) as [g' r']. simpl in Hl.
    destruct g' as [|c g']; try discriminate.
    destruct r' as [|d0 [|d1 r'']]; try discriminate.
    + destruct d0 as [[] [] [] [] [] [] [] []]; discriminate.
    + destruct d0 as [[] [] [] [] [] [] [] []]; try discriminate.
      destruct d1 as [[] [] [] [] [] [] [] []]; try discriminate.
      inversion H; subst. simpl in *. lia.
Qed.

Lemma exec_unfold s :
  exec s = match match_here s with
           | Some m => Some m
           | None => match s with
                     | String _ t => exec t
                     | EmptyString => None
                     end
           end.
Proof. destruct s; reflexivity. Qed.

Lemma exec_length s g r :
  exec s = Some (g, r) -> String.length r < String.length s.
Proof.
  induction s as [|c t IH]; rewrite exec_unfold.
  - discriminate.
  - destruct (match_here (String c t)) as [[g' r']|] eqn:E.
    + intros H; inversion H; subst.
      apply match_here_length in E. exact E.
    + intros H. apply IH in H. simpl. lia.
Qed.

Definition inspect {A : Type} (a : A) : { b : A | a = b } :=
  exist _ a eq_refl.

(** The loop of [parseLinks]:
    [while ((match = LINK_REGEX.exec(content)) !== null) links.add(match[1])]. *)
Equations? parseLoop (s : string) (links : list string) : list string
  by wf (String.length s) lt :=
  parseLoop s links with inspect (exec s) := {
    | exist _ (Some (g, r)) E => parseLoop r (JsSet.add g links)
    | exist _ None E => links }.
Proof. apply exec_length with (g := g). exact E. Qed.

(** [parseLinks(content)]: [Array.from(links)]. *)
Definition parseLinks (content : string) : list string :=
  parseLoop content [].

Example parseLinks_ex :
  parseLinks "see [[ab-1]] and [[zz]] [[ab-1]][[F0]] [[]]" = ["ab-1"; "F0"].
Proof. reflexivity. Qed.

(** ** Objects used as maps *)

Module Obj.

Section Table.
Variable A : Type.

Definition t := list (string * A).

(** [o[k]]; [None] is [undefined].  Keys are identifiers, none of which
    names a member of [Object.prototype]. *)
Fixpoint get (k : string) (o : t) : option A :=
  match o with
  | [] => None
  | (k', v) :: r => if String.eqb k' k then Some v else get k r
  end.

(** [o[k] = v]: an existing key keeps its place, a new key goes last. *)
Fixpoint set (k : string) (v : A) (o : t) : t :=
  match o with
  | [] => [(k, v)]
  | (k', v') :: r =>
      if String.eqb k' k then (k', v) :: r else (k', v') :: set k v r
  end.

(** [o[k].field = ...]: the record stored under [k] is mutated in place;
    every alias of [o[k]] sees the change. *)
Fixpoint modify (k : string) (f : A -> A) (o : t) : t :=
  match o with
  | [] => []
  | (k', v) :: r =>
      if String.eqb k' k then (k', f v) :: r else (k', v) :: modify k f r
  end.

(** [delete o[k]] *)
Definition del (k : string) (o : t) : t :=
  filter (fun e => negb (String.eqb (fst e) k)) o.

(** [Object.values(o)] *)
Definition values (o : t) : list A := map snd o.

End Table.

Arguments get {A} k o.
Arguments set {A} k v o.
Arguments modify {A} k f o.
Arguments del {A} k o.
Arguments values {A} o.

End Obj.

(** ** Records of the document *)

Module Note.
Record t := mk {
  id : string;
  title : string;
  content : string;
  createdAt : string;
  updatedAt : string;
  links : list string;
  backlinks : list string }.

Definition set_title (v : string) (n : t) : t :=
  mk (id n) v (content n) (createdAt n) (updatedAt n) (links n) (backlinks n).
Definition set_content (v : string) (n : t) : t :=
  mk (id n) (title n) v (createdAt n) (updatedAt n) (links n) (backlinks n).
Definition set_updatedAt (v : string) (n : t) : t :=
  mk (id n) (title n) (content n) (createdAt n) v (links n) (backlinks n).
Definition set_links (v : list string) (n : t) : t :=
  mk (id n) (title n) (content n) (createdAt n) (updatedAt n) v (backlinks n).
Definition set_backlinks (v : list string) (n : t) : t :=
  mk (id n) (title n) (content n) (createdAt n) (updatedAt n) (links n) v.
End Note.

Module Template.
Record t := mk {
  id : string;
  title : string;
  content : string }.

Definition set_title (v : string) (x : t) : t := mk (id x) v (content x).
Definition set_content (v : string) (x : t) : t := mk (id x) (title x) v.
End Template.

(** The document [db]; [templates] is [None] when the key is missing. *)
Record Db := mkDb {
  notes : Obj.t Note.t;
  templates : option (Obj.t Template.t) }.

Definition set_notes (ns : Obj.t Note.t) (db : Db) : Db :=
  mkDb ns (templates db).
Definition set_templates (ts : Obj.t Template.t) (db : Db) : Db :=
  mkDb (notes db) (Some ts).

(** ** [updateLinks] *)

(** [array.includes(x)] *)
Definition includes (l : list string) (x : string) : bool := JsSet.has x l.

(** Body of the loop over [toRemove]. *)
Definition removeBacklink (noteId : string) (ns : Obj.t Note.t)
    (targetId : string) : Obj.t Note.t :=
  match Obj.get targetId ns with
  | Some target =>
      Obj.modify targetId
        (Note.set_backlinks
           (filter (fun id => negb (String.eqb id noteId))
              (Note.backlinks target)))
        ns
  | None => ns
  end.

(** Body of the loop over [toAdd]. *)
Definition addBacklink (noteId : string) (ns : Obj.t Note.t)
    (targetId : string) : Obj.t Note.t :=
  match Obj.get targetId ns with
  | Some target =>
      if negb (String.eqb targetId noteId) then
        if negb (includes (Note.backlinks target) noteId) then
          Obj.modify targetId
            (Note.set_backlinks (Note.backlinks target ++ [noteId])) ns
        else ns
      else ns
  | None => ns
  end.

(** [updateLinks(noteId, newContent, db)], as a function of the notes.
    [note] is an alias of [db.notes[noteId]]: the final assignment to
    [note.links] lands in the table as the two loops left it. *)
Definition updateLinks_notes (noteId newContent : string)
    (ns : Obj.t Note.t) : Obj.t Note.t :=
  match Obj.get noteId ns with
  | None => ns
  | Some note =>
      let oldLinks := JsSet.of_array (Note.links note) in
      let newLinks := JsSet.of_array (parseLinks newContent) in
      let toRemove :=
        filter (fun id => negb (JsSet.has id newLinks)) oldLinks in
      let ns1 := fold_left (removeBacklink noteId) toRemove ns in
      let toAdd :=
        filter (fun id => negb (JsSet.has id oldLinks)) newLinks in
      let ns2 := fold_left (addBacklink noteId) toAdd ns1 in
      Obj.modify noteId (Note.set_links newLinks) ns2
  end.

Definition updateLinks (noteId newContent : string) (db : Db) : Db :=
  set_notes (updateLinks_notes noteId newContent (notes db)) db.

(** ** Requests, responses and the collaborators *)

(** The decoded JSON body of a request; a missing field is [None]. *)
Record Body := mkBody {
  b_title : option string;
  b_content : option string;
  b_templateId : option string }.

(** The routes of the request handler, with [urlParts[3]] as [id]. *)
Inductive Request :=
| POST_templates (b : Body)
| GET_templates
| GET_template (id : string)
| PUT_template (id : string) (b : Body)
| DELETE_template (id : string)
| GET_notes
| GET_notes_daily
| GET_note (id : string)
| POST_notes (b : Body)
| PUT_note (id : string) (b : Body)
| DELETE_note (id : string)
| Unrouted.

Inductive Json :=
| JNote (n : Note.t)
| JNotes (l : list Note.t)
| JTemplate (x : Template.t)
| JTemplates (l : list Template.t)
| JMessage (m : string)
| JNothing.

Record Response := mkResponse { status : nat; payload : Json }.

(** What the request draws from outside: the identifier [randomUUID()]
    returns, and the result of the k-th [new Date().toISOString()]. *)
Record Env := mkEnv {
  randomUUID : string;
  toISOString : nat -> string }.

(** A handler returns normally or throws. *)
Inductive result (A : Type) :=
| Ok (a : A)
| Throw (e : string).
Arguments Ok {A} a.
Arguments Throw {A} e.

(** A handler's normal outcome: the response and, when it called
    [writeDB], the document it wrote. *)
Definition Outcome := (Response * option Db)%type.

Definition respond (code : nat) (p : Json) : result Outcome :=
  Ok (mkResponse code p, None).
Definition write_respond (db : Db) (code : nat) (p : Json) : result Outcome :=
  Ok (mkResponse code p, Some db).

(** Truthiness of a string field: [undefined] and [""] are falsy. *)
Definition truthy (v : option string) : bool :=
  match v with
  | Some s => negb (String.eqb s "")
  | None => false
  end.

(** [v || d] *)
Definition or_else (v : option string) (d : string) : string :=
  match v with
  | Some s => if String.eqb s "" then d else s
  | None => d
  end.

(** [iso.split('T')[0]] *)
Fixpoint before_T (s : string) : string :=
  match s with
  | String c t => if Ascii.eqb c "T" then EmptyString else String c (before_T t)
  | EmptyString => EmptyString
  end.

Definition newline : string := String (ascii_of_nat 10) EmptyString.

(** ** The template handlers *)

Definition type_error : string := "TypeError".

(** [db.templates], whose members cannot be read when it is [undefined]. *)
Definition templates_of (db : Db) (k : Obj.t Template.t -> result Outcome)
  : result Outcome :=
  match templates db with
  | Some ts => k ts
  | None => Throw type_error
  end.

Definition create_template (env : Env) (b : Body) (db : Db) : result Outcome :=
  if negb (truthy (b_title b)) || negb (truthy (b_content b)) then
    respond 400 (JMessage "Template title and content are required.")
  else
    let id := randomUUID env in
    let newTemplate :=
      Template.mk id (or_else (b_title b) "") (or_else (b_content b) "") in
    templates_of db (fun ts =>
      write_respond (set_templates (Obj.set id newTemplate ts) db)
        201 (JTemplate newTemplate)).

Definition list_templates (db : Db) : result Outcome :=
  templates_of db (fun ts => respond 200 (JTemplates (Obj.values ts))).

Definition read_template (id : string) (db : Db) : result Outcome :=
  templates_of db (fun ts =>
    match Obj.get id ts with
    | Some x => respond 200 (JTemplate x)
    | None => respond 404 (JMessage "Template not found.")
    end).

Definition update_template (id : string) (b : Body) (db : Db)
  : result Outcome :=
  templates_of db (fun ts =>
    match Obj.get id ts with
    | None => respond 404 (JMessage "Template not found.")
    | Some x =>
        let x' :=
          Template.set_content (or_else (b_content b) (Template.content x))
            (Template.set_title (or_else (b_title b) (Template.title x)) x) in
        write_respond (set_templates (Obj.modify id (fun _ => x') ts) db)
          200 (JTemplate x')
    end).

Definition delete_template (id : string) (db : Db) : result Outcome :=
  templates_of db (fun ts =>
    match Obj.get id ts with
    | None => respond 404 (JMessage "Template not found.")
    | Some _ => write_respond (set_templates (Obj.del id ts) db) 204 JNothing
    end).

(** ** The note handlers *)

Definition list_notes (db : Db) : result Outcome :=
  respond 200 (JNotes (Obj.values (notes db))).

Definition dailyNoteTitle (today : string) : string :=
  "Daily Note: " ++ today.

(** [GET /api/notes/daily] *)
Definition daily_note (env : Env) (db : Db) : result Outcome :=
  let today := before_T (toISOString env 0) in
  match find (fun note => String.eqb (Note.title note) (dailyNoteTitle today))
          (Obj.values (notes db)) with
  | Some dailyNote => respond 200 (JNote dailyNote)
  | None =>
      let id := randomUUID env in
      let dailyNote :=
        Note.mk id (dailyNoteTitle today) ("# " ++ today ++ newline ++ newline)
          (toISOString env 1) (toISOString env 2) [] [] in
      write_respond (set_notes (Obj.set id dailyNote (notes db)) db)
        201 (JNote dailyNote)
  end.

Definition read_note (id : string) (db : Db) : result Outcome :=
  match Obj.get id (notes db) with
  | Some note => respond 200 (JNote note)
  | None => respond 404 (JMessage "Note not found.")
  end.

(** The tail of [POST /api/notes], once [noteContent] is known. *)
Definition insert_note (env : Env) (b : Body) (noteContent : string)
    (db : Db) : result Outcome :=
  if String.eqb noteContent "" && negb (truthy (b_content b)) then
    respond 400 (JMessage "Content is required if not using a template.")
  else
    let id := randomUUID env in
    let newNote :=
      Note.mk id (or_else (b_title b) "") noteContent
        (toISOString env 0) (toISOString env 1) [] [] in
    let db1 := set_notes (Obj.set id newNote (notes db)) db in
    let db2 := updateLinks id noteContent db1 in
    write_respond db2 201
      (match Obj.get id (notes db2) with
       | Some n => JNote n
       | None => JNothing
       end).

(** [POST /api/notes] *)
Definition create_note (env : Env) (b : Body) (db : Db) : result Outcome :=
  if negb (truthy (b_title b)) then
    respond 400 (JMessage "Title is required.")
  else
    let noteContent := or_else (b_content b) "" in
    if truthy (b_templateId b) then
      templates_of db (fun ts =>
        match Obj.get (or_else (b_templateId b) "") ts with
        | Some template => insert_note env b (Template.content template) db
        | None => respond 404 (JMessage "Template not found.")
        end)
    else insert_note env b noteContent db.

(** [PUT /api/notes/:id] *)
Definition update_note (env : Env) (id : string) (b : Body) (db : Db)
  : result Outcome :=
  match Obj.get id (notes db) with
  | None => respond 404 (JMessage "Note not found.")
  | Some note =>
      let db1 :=
        set_notes
          (Obj.modify id (Note.set_title (or_else (b_title b) (Note.title note)))
             (notes db)) db in
      let newContent := or_else (b_content b) (Note.content note) in
      let db2 :=
        if truthy (b_content b) then updateLinks id newContent db1 else db1 in
      let db3 :=
        set_notes
          (Obj.modify id
             (fun n => Note.set_updatedAt (toISOString env 0)
                         (Note.set_content newContent n))
             (notes db2)) db2 in
      write_respond db3 200
        (match Obj.get id (notes db3) with
         | Some n => JNote n
         | None => JNothing
         end)
  end.

(** Body of the loop over [noteToDelete.backlinks]. *)
Definition removeLink (id : string) (ns : Obj.t Note.t)
    (backlinkId : string) : Obj.t Note.t :=
  match Obj.get backlinkId ns with
  | Some source =>
      Obj.modify backlinkId
        (Note.set_links
           (filter (fun linkId => negb (String.eqb linkId id))
              (Note.links source)))
        ns
  | None => ns
  end.

Definition deleteNote_notes (id : string) (noteToDelete : Note.t)
    (ns : Obj.t Note.t) : Obj.t Note.t :=
  Obj.del id (fold_left (removeLink id) (Note.backlinks noteToDelete) ns).

(** [DELETE /api/notes/:id] *)
Definition delete_note (id : string) (db : Db) : result Outcome :=
  match Obj.get id (notes db) with
  | None => respond 404 (JMessage "Note not found.")
  | Some noteToDelete =>
      write_respond
        (set_notes (deleteNote_notes id noteToDelete (notes db)) db)
        204 JNothing
  end.

(** ** Persistence and the request handler *)

(** The file [db.json]: [None] when it does not exist. *)
Definition Disk := option Db.

Definition initialDb : Db := mkDb [] None.

(** [readDB]: a missing file is created holding [{ notes: {} }]. *)
Definition readDB (disk : Disk) : Db * Disk :=
  match disk with
  | Some db => (db, disk)
  | None => (initialDb, Some initialDb)
  end.

Definition route (env : Env) (req : Request) (db : Db) : result Outcome :=
  match req with
  | POST_templates b => create_template env b db
  | GET_templates => list_templates db
  | GET_template id => read_template id db
  | PUT_template id b => update_template id b db
  | DELETE_template id => delete_template id db
  | GET_notes => list_notes db
  | GET_notes_daily => daily_note env db
  | GET_note id => read_note id db
  | POST_notes b => create_note env b db
  | PUT_note id b => update_note env id b db
  | DELETE_note id => delete_note id db
  | Unrouted => respond 404 (JMessage "Endpoint not found.")
  end.

(** One request, from [readDB] to the response: the [catch] answers 500
    and leaves the file as [readDB] left it. *)
Definition server (env : Env) (req : Request) (disk : Disk)
  : Response * Disk :=
  let (db, disk1) := readDB disk in
  match route env req db with
  | Ok (resp, Some db') => (resp, Some db')
  | Ok (resp, None) => (resp, disk1)
  | Throw _ => (mkResponse 500 (JMessage "Internal Server Error"), disk1)
  end.

(** ** Routing *)

(** [url.split('/')] *)
Fixpoint split_slash (s : string) : list string :=
  match s with
  | EmptyString => [EmptyString]
  | String c t =>
      if Ascii.eqb c "/" then EmptyString :: split_slash t
      else match split_slash t with
           | h :: r => String c h :: r
           | [] => [String c EmptyString]
           end
  end.

(** [urlParts[3]], used as a property key: a missing part is [undefined],
    which a key lookup reads as the string ["undefined"]. *)
Definition urlPart3 (url : string) : string :=
  match nth_error (split_slash url) 3 with
  | Some part => part
  | None => "undefined"
  end.

(** [url.startsWith(p)] *)
Definition startsWith (p url : string) : bool := String.prefix p url.

(** The chain of [if (method === ... && url ...)] tests of the request
    handler, in the order of the source; [b] is what [parseBody] yields
    for the handlers that call it. *)
Definition dispatch (method url : string) (b : Body) : Request :=
  let id := urlPart3 url in
  if String.eqb method "POST" && String.eqb url "/api/templates"
  then POST_templates b
  else if String.eqb method "GET" && String.eqb url "/api/templates"
  then GET_templates
  else if String.eqb method "GET" && startsWith "/api/templates/" url
  then GET_template id
  else if String.eqb method "PUT" && startsWith "/api/templates/" url
  then PUT_template id b
  else if String.eqb method "DELETE" && startsWith "/api/templates/" url
  then DELETE_template id
  else if String.eqb method "GET" && String.eqb url "/api/notes"
  then GET_notes
  else if String.eqb method "GET" && String.eqb url "/api/notes/daily"
  then GET_notes_daily
  else if String.eqb method "GET" && startsWith "/api/notes/" url
  then GET_note id
  else if String.eqb method "POST" && String.eqb url "/api/notes"
  then POST_notes b
  else if String.eqb method "PUT" && startsWith "/api/notes/" url
  then PUT_note id b
  else if String.eqb method "DELETE" && startsWith "/api/notes/" url
  then DELETE_note id
  else Unrouted.

(** One HTTP request, from its method and URL to the response. *)
Definition http (env : Env) (method url : string) (b : Body) (disk : Disk)
  : Response * Disk :=
  server env (dispatch method url b) disk.

(** A path segment: a string without [/]. *)
Fixpoint segment (s : string) : bool :=
  match s with
  | EmptyString => true
  | String c t => negb (Ascii.eqb c "/") && segment t
  end.

(** ** Well-formed markers *)

(** A string of class characters only. *)
Fixpoint all_link (s : string) : bool :=
  match s with
  | String c t => link_char c && all_link t
  | EmptyString => true
  end.

(** A well-formed identifier inside a marker: one class character or more. *)
Definition link_id (s : string) : bool :=
  match s with
  | String _ _ => all_link s
  | EmptyString => false
  end.

(** The marker for [id], as it appears in a content. *)
Definition marker (id : string) : string := "[[" ++ id ++ "]]".
Arguments marker : simpl never.

(** ** The effect of [updateLinks] and of a deletion on one note *)

(** [id => id !== noteId] *)
Definition not_id (noteId : string) : string -> bool :=
  fun id => negb (String.eqb id noteId).

(** The two guards of the loop over [toAdd], for the target [k] whose
    record is [x]. *)
Definition adds_backlink (noteId k : string) (x : Note.t) : bool :=
  negb (String.eqb k noteId) && negb (includes (Note.backlinks x) noteId).

(** What [updateLinks(noteId, newContent, db)] makes of the note stored
    under [k], where [note] is the record of [noteId] before the call. *)
Definition after_update (noteId newContent : string) (note : Note.t)
    (k : string) (x : Note.t) : Note.t :=
  let oldLinks := JsSet.of_array (Note.links note) in
  let newLinks := JsSet.of_array (parseLinks newContent) in
  let x1 :=
    if JsSet.has k (filter (fun id => negb (JsSet.has id newLinks)) oldLinks)
    then Note.set_backlinks (filter (not_id noteId) (Note.backlinks x)) x
    else x in
  let x2 :=
    if JsSet.has k (filter (fun id => negb (JsSet.has id oldLinks)) newLinks)
       && adds_backlink noteId k x1
    then Note.set_backlinks (Note.backlinks x1 ++ [noteId]) x1
    else x1 in
  if String.eqb noteId k then Note.set_links newLinks x2 else x2.

(** What the deletion of [id], whose record was [noteToDelete], makes of
    a surviving note stored under [k]. *)
Definition after_delete (id : string) (noteToDelete : Note.t)
    (k : string) (x : Note.t) : Note.t :=
  if JsSet.has k (Note.backlinks noteToDelete)
  then Note.set_links (filter (not_id id) (Note.links x)) x
  else x.

(** The store after a [POST /api/notes] that carries its own content. *)
Definition created (env : Env) (title content : string) (db : Db) : Db :=
  let id := randomUUID env in
  updateLinks id content
    (set_notes
       (Obj.set id
          (Note.mk id title content (toISOString env 0) (toISOString env 1)
             [] [])
          (notes db))
       db).

(** ** The link graph *)

(** Notes [a] and [b], when both are stored, agree on the edge from [a]
    to [b]. *)
Definition symmetric_at (ns : Obj.t Note.t) (a b : string) : Prop :=
  forall A B,
    Obj.get a ns = Some A -> Obj.get b ns = Some B ->
    (In b (Note.links A) <-> In a (Note.backlinks B)).

(** Graph symmetry over every pair of stored notes. *)
Definition symmetry (ns : Obj.t Note.t) : Prop :=
  forall a b, symmetric_at ns a b.

(** Graph symmetry over every pair of two different stored notes. *)
Definition symmetry_distinct (ns : Obj.t Note.t) : Prop :=
  forall a b, a <> b -> symmetric_at ns a b.

(** [id] is no key of the table and occurs in no [links] or [backlinks]. *)
Definition unmentioned (id : string) (ns : Obj.t Note.t) : bool :=
  negb (existsb
          (fun e => String.eqb (fst e) id
                    || JsSet.has id (Note.links (snd e))
                    || JsSet.has id (Note.backlinks (snd e)))
          ns).

(** The requests that run [updateLinks] on note [a]. *)
Definition edits (a : string) (req : Request) : bool :=
  match req with
  | PUT_note id b => String.eqb id a && truthy (b_content b)
  | _ => false
  end.

(** The [links] and the [backlinks] of the note stored under [k] in the
    file; [None] when there is no such note. *)
Definition links_of (disk : Disk) (k : string) : option (list string) :=
  match disk with
  | Some db => option_map Note.links (Obj.get k (notes db))
  | None => None
  end.

Definition backlinks_of (disk : Disk) (k : string) : option (list string) :=
  match disk with
  | Some db => option_map Note.backlinks (Obj.get k (notes db))
  | None => None
  end.

(** ** Sequences of requests *)

(** The requests that store a new note under the identifier they draw. *)
Definition creates_note (req : Request) : bool :=
  match req with
  | POST_notes _ | GET_notes_daily => true
  | _ => false
  end.

(** The identifier a request draws for a new note occurs nowhere in the
    stored notes: the contract of the identifier generator. *)
Definition fresh_for (env : Env) (req : Request) (disk : Disk) : bool :=
  negb (creates_note req)
  || match disk with
     | Some db => unmentioned (randomUUID env) (notes db)
     | None => true
     end.

(** No file yet, or a document without notes. *)
Definition empty_start (disk : Disk) : bool :=
  match disk with
  | Some db => match notes db with [] => true | _ :: _ => false end
  | None => true
  end.

(** The file after a sequence of requests, each handled to completion. *)
Fixpoint run (trace : list (Env * Request)) (disk : Disk) : Disk :=
  match trace with
  | [] => disk
  | (env, req) :: rest => run rest (snd (server env req disk))
  end.

(** Every request of the sequence draws a fresh identifier. *)
Fixpoint fresh_trace (trace : list (Env * Request)) (disk : Disk) : bool :=
  match trace with
  | [] => true
  | (env, req) :: rest =>
      fresh_for env req disk && fresh_trace rest (snd (server env req disk))
  end.

(** Graph symmetry of the stored document, when there is one. *)
Definition disk_symmetry_distinct (disk : Disk) : Prop :=
  match disk with
  | Some db => symmetry_distinct (notes db)
  | None => True
  end.

(** ** Classes of requests and properties of all notes *)

(** The requests that only read. *)
Definition reads_only (req : Request) : bool :=
  match req with
  | GET_templates | GET_template _ | GET_notes | GET_note _ | Unrouted => true
  | _ => false
  end.

(** The requests that belong to the template endpoints. *)
Definition template_request (req : Request) : bool :=
  match req with
  | POST_templates _ | GET_templates | GET_template _
  | PUT_template _ _ | DELETE_template _ => true
  | _ => false
  end.

(** The document has no [templates] (or there is no file yet). *)
Definition templates_missing (disk : Disk) : bool :=
  match disk with
  | Some db => match templates db with None => true | Some _ => false end
  | None => true
  end.

(** Every stored record has the property [P] of its key and itself. *)
Definition all_notes (P : string -> Note.t -> Prop) (ns : Obj.t Note.t)
  : Prop :=
  forall k x, Obj.get k ns = Some x -> P k x.

Definition disk_all_notes (P : string -> Note.t -> Prop) (disk : Disk)
  : Prop :=
  match disk with
  | Some db => all_notes P (notes db)
  | None => True
  end.

(** ** Sample data *)

Module Sample.

Definition idA : string := "0a1b2c3d-0000-4000-8000-00000000000a".
Definition idB : string := "0a1b2c3d-0000-4000-8000-00000000000b".
Definition idX : string := "0a1b2c3d-0000-4000-8000-0000000000ff".

Definition clock : nat -> string := fun _ => "2024-05-17T09:30:00.000Z".

Definition env (id : string) : Env := mkEnv id clock.

Definition body (title content : string) : Body :=
  mkBody (Some title) (Some content) None.

Definition content_only (content : string) : Body :=
  mkBody None (Some content) None.

Definition stamp : string := clock 0.

(** A, then B whose content references A. *)
Definition trace_linked : list (Env * Request) :=
  [(env idA, POST_notes (body "A" "first"));
   (env idB, POST_notes (body "B" ("see " ++ marker idA)))].

Definition noteA : Note.t :=
  Note.mk idA "A" "first" stamp stamp [] [idB].

Definition noteB : Note.t :=
  Note.mk idB "B" ("see " ++ marker idA) stamp stamp [idA] [].

Definition linked : Db := mkDb [(idA, noteA); (idB, noteB)] None.

(** The store of the update-to-empty scenario: A with content [""], B with
    content [[[A.id]]]. *)
Definition scenario : Db :=
  mkDb [(idA, Note.mk idA "A" "" stamp stamp [] [idB]);
        (idB, Note.mk idB "B" (marker idA) stamp stamp [idA] [])]
       None.

End Sample.

(** * Properties *)

(** ** Sets *)

Lemma has_In x s : JsSet.has x s = true <-> In x s.
Proof.
  induction s as [|y t IH]; simpl.
  - split; [discriminate | tauto].
  - destruct (String.eqb_spec y x) as [->|Hne].
    + tauto.
    + rewrite IH. split; [tauto | intros [H|H]; [contradiction | exact H]].
Qed.

Lemma has_false x s : JsSet.has x s = false <-> ~ In x s.
Proof.
  rewrite <- has_In. destruct (JsSet.has x s); split; congruence.
Qed.

Lemma In_add y x s : In y (JsSet.add x s) <-> In y s \/ y = x.
Proof.
  unfold JsSet.add. destruct (JsSet.has x s) eqn:E.
  - apply has_In in E. split; [tauto | intros [H| ->]; assumption].
  - rewrite in_app_iff. simpl. split; intros [H|H]; auto.
    + destruct H as [H|[]]; auto.
Qed.

Lemma NoDup_snoc (x : string) s : NoDup s -> ~ In x s -> NoDup (s ++ [x]).
Proof.
  induction 1 as [|y t Hy Ht IH]; simpl; intros Hx.
  - constructor; [tauto | constructor].
  - constructor.
    + rewrite in_app_iff. simpl. intros [H|[H|[]]]; [tauto | subst; tauto].
    + apply IH. tauto.
Qed.

Lemma NoDup_add x s : NoDup s -> NoDup (JsSet.add x s).
Proof.
  intros H. unfold JsSet.add. destruct (JsSet.has x s) eqn:E; [exact H|].
  apply NoDup_snoc; [exact H | apply has_false; exact E].
Qed.

Lemma fold_add_NoDup l acc :
  NoDup acc -> NoDup (fold_left (fun s x => JsSet.add x s) l acc).
Proof.
  revert acc. induction l as [|x l IH]; simpl; intros acc H; [exact H|].
  apply IH, NoDup_add, H.
Qed.

Lemma fold_add_In y l acc :
  In y (fold_left (fun s x => JsSet.add x s) l acc) <-> In y acc \/ In y l.
Proof.
  revert acc. induction l as [|x l IH]; simpl; intros acc; [tauto|].
  rewrite IH, In_add. intuition congruence.
Qed.

Lemma fold_add_fresh l acc :
  NoDup (acc ++ l) -> fold_left (fun s x => JsSet.add x s) l acc = acc ++ l.
Proof.
  revert acc. induction l as [|x l IH]; simpl; intros acc H.
  - symmetry. apply app_nil_r.
  - assert (Hx : ~ In x acc).
    { apply NoDup_remove_2 in H. rewrite in_app_iff in H. tauto. }
    unfold JsSet.add at 2. apply has_false in Hx. rewrite Hx.
    rewrite IH; rewrite <- app_assoc; [reflexivity | exact H].
Qed.

Lemma of_array_NoDup l : NoDup (JsSet.of_array l).
Proof. apply fold_add_NoDup. constructor. Qed.

Lemma of_array_In y l : In y (JsSet.of_array l) <-> In y l.
Proof. unfold JsSet.of_array. rewrite fold_add_In. simpl. tauto. Qed.

Lemma of_array_fixed l : NoDup l -> JsSet.of_array l = l.
Proof. intros H. apply (fold_add_fresh l []). exact H. Qed.

(** ** The extractor *)

Lemma parseLoop_step s links :
  parseLoop s links =
  match exec s with
  | Some (g, r) => parseLoop r (JsSet.add g links)
  | None => links
  end.
Proof. funelim (parseLoop s links); rewrite E; reflexivity. Qed.

Lemma parseLoop_NoDup s links : NoDup links -> NoDup (parseLoop s links).
Proof.
  funelim (parseLoop s links); intros Hn; [|exact Hn].
  match goal with IH : _ -> _ |- _ => apply IH end.
  apply NoDup_add. exact Hn.
Qed.

Lemma parseLoop_keeps s links x : In x links -> In x (parseLoop s links).
Proof.
  funelim (parseLoop s links); intros Hx; [|exact Hx].
  match goal with IH : forall y, _ -> _ |- _ => apply IH end.
  apply In_add. left. exact Hx.
Qed.

Lemma parseLinks_NoDup content : NoDup (parseLinks content).
Proof. apply parseLoop_NoDup. constructor. Qed.

Lemma append_assoc (a b c : string) :
  ((a ++ b) ++ c = a ++ (b ++ c))%string.
Proof. induction a as [|x a IH]; simpl; [reflexivity | now rewrite IH]. Qed.

Lemma span_link_spec s g r :
  span_link s = (g, r) -> s = (g ++ r)%string /\ all_link g = true.
Proof.
  revert g r. induction s as [|c t IH]; simpl; intros g r H.
  - inversion H; subst. split; reflexivity.
  - destruct (link_char c) eqn:Ec.
    + destruct (span_link t) as [g' r'] eqn:Et. inversion H; subst.
      destruct (IH g' r eq_refl) as [-> Hg]. simpl. rewrite Ec, Hg.
      split; reflexivity.
    + inversion H; subst. split; reflexivity.
Qed.

Lemma span_link_closing g r :
  all_link g = true ->
  span_link (g ++ String "]" r) = (g, String "]" r).
Proof.
  induction g as [|c g IH]; simpl; intros H.
  - reflexivity.
  - apply andb_prop in H. destruct H as [Hc Hg].
    rewrite Hc, (IH Hg). reflexivity.
Qed.

Lemma match_here_inv s g r :
  match_here s = Some (g, r) ->
  s = String "[" (String "[" (g ++ String "]" (String "]" r)))
  /\ link_id g = true.
Proof.
  unfold match_here.
  destruct s as [|c0 [|c1 t]]; try discriminate.
  - destruct c0 as [[] [] [] [] [] [] [] []]; discriminate.
  - intros H.
    destruct c0 as [[] [] [] [] [] [] [] []]; try discriminate.
    destruct c1 as [[] [] [] [] [] [] [] []]; try discriminate.
    destruct (span_link t) as [g' r'] eqn:Et.
    apply span_link_spec in Et. destruct Et as [-> Hg].
    destruct g' as [|c g']; try discriminate.
    destruct r' as [|d0 [|d1 r'']]; try discriminate.
    + destruct d0 as [[] [] [] [] [] [] [] []]; discriminate.
    + destruct d0 as [[] [] [] [] [] [] [] []]; try discriminate.
      destruct d1 as [[] [] [] [] [] [] [] []]; try discriminate.
      inversion H; subst. split; [reflexivity | exact Hg].
Qed.

Lemma match_here_marker id post :
  link_id id = true ->
  match_here (marker id ++ post) = Some (id, post).
Proof.
  intros H. destruct id as [|c g]; [discriminate|].
  unfold marker. simpl in H. simpl.
  apply andb_prop in H. destruct H as [Hc Hg]. rewrite Hc.
  change (String "]" (String "]" "")) with ("]]")%string.
  rewrite append_assoc. simpl.
  rewrite (span_link_closing g (String "]" post) Hg). reflexivity.
Qed.

(** A match that starts before a marker ends before it: inside the match,
    after its two opening brackets, there is no opening bracket. *)
Lemma match_tail_before_marker g :
  all_link g = true ->
  forall p m r,
    (p ++ String "[" m = g ++ String "]" (String "]" r))%string ->
    exists p', r = (p' ++ String "[" m)%string
               /\ String.length p' < String.length p.
Proof.
  induction g as [|c g IH]; simpl; intros Hg p m r E.
  - destruct p as [|a [|b p2]]; simpl in E; try discriminate.
    inversion E; subst. exists p2. split; [reflexivity | simpl; lia].
  - apply andb_prop in Hg. destruct Hg as [Hc Hg].
    destruct p as [|a p1]; simpl in E.
    + inversion E; subst. discriminate.
    + inversion E; subst.
      destruct (IH Hg p1 m r) as [p' [-> Hl]]; [assumption|].
      exists p'. split; [reflexivity | simpl; lia].
Qed.

Lemma match_before_marker c p id post g r :
  match_here (String c p ++ marker id ++ post) = Some (g, r) ->
  exists p', r = (p' ++ marker id ++ post)%string
             /\ String.length p' < String.length (String c p).
Proof.
  intros H. apply match_here_inv in H. destruct H as [E Hg].
  destruct g as [|d g]; [discriminate|]. simpl in Hg.
  unfold marker in *. simpl in E.
  inversion E as [[Ec E1]]. clear E.
  destruct p as [|b p1]; simpl in E1.
  - inversion E1; subst. discriminate.
  - inversion E1 as [[Eb E2]]. clear E1.
    destruct (match_tail_before_marker (String d g) Hg p1
                (String "[" (id ++ "]]") ++ post)%string r) as [p' [-> Hl]].
    + simpl. exact E2.
    + exists p'. split; [reflexivity | simpl; lia].
Qed.

Lemma exec_marker pre id post :
  link_id id = true ->
  exists g r,
    exec (pre ++ marker id ++ post) = Some (g, r)
    /\ ((g = id /\ r = post)
        \/ exists p', r = (p' ++ marker id ++ post)%string
                      /\ String.length p' < String.length pre).
Proof.
  intros Hid. induction pre as [|c p IH].
  - exists id, post. split; [|left; split; reflexivity].
    change ("" ++ marker id ++ post)%string with (marker id ++ post)%string.
    rewrite exec_unfold, (match_here_marker id post Hid). reflexivity.
  - rewrite exec_unfold.
    destruct (match_here (String c p ++ marker id ++ post))
      as [[g r]|] eqn:E.
    + exists g, r. split; [reflexivity|]. right.
      exact (match_before_marker c p id post g r E).
    + destruct IH as [g [r [Hx Hr]]]. exists g, r. split; [exact Hx|].
      destruct Hr as [Hr | [p' [-> Hl]]]; [left; exact Hr | right].
      exists p'. split; [reflexivity | simpl; lia].
Qed.

(** Every well-formed marker of a content is extracted. *)
Lemma parseLoop_marker id post pre links :
  link_id id = true ->
  In id (parseLoop (pre ++ marker id ++ post) links).
Proof.
  intros Hid.
  remember (String.length pre) as n eqn:Hn.
  revert pre links Hn.
  induction n as [n IH] using lt_wf_ind. intros pre links Hn.
  rewrite parseLoop_step.
  destruct (exec_marker pre id post Hid) as [g [r [-> Hr]]].
  destruct Hr as [[-> ->] | [p' [-> Hl]]].
  - apply parseLoop_keeps, In_add. right. reflexivity.
  - apply (IH (String.length p')); [lia | reflexivity].
Qed.

Lemma parseLinks_marker id pre post :
  link_id id = true ->
  In id (parseLinks (pre ++ marker id ++ post)).
Proof. intros H. apply parseLoop_marker. exact H. Qed.

(** ** Objects *)

Section ObjFacts.
Context {A : Type}.
Implicit Types (o : Obj.t A) (k : string) (v : A).

Lemma get_set_eq k v o : Obj.get k (Obj.set k v o) = Some v.
Proof.
  induction o as [|[k' v'] r IH]; simpl.
  - now rewrite String.eqb_refl.
  - destruct (String.eqb k' k) eqn:E; simpl; rewrite E; auto.
Qed.

Lemma get_set_ne k k' v o :
  k' <> k -> Obj.get k' (Obj.set k v o) = Obj.get k' o.
Proof.
  intros Hne. induction o as [|[k0 v0] r IH]; simpl.
  - destruct (String.eqb_spec k k'); [congruence | reflexivity].
  - destruct (String.eqb_spec k0 k) as [->|E]; simpl.
    + destruct (String.eqb_spec k k'); [congruence | reflexivity].
    + destruct (String.eqb k0 k'); [reflexivity | exact IH].
Qed.

Lemma get_modify_eq k f o :
  Obj.get k (Obj.modify k f o) = option_map f (Obj.get k o).
Proof.
  induction o as [|[k' v'] r IH]; simpl; [reflexivity|].
  destruct (String.eqb k' k) eqn:E; simpl; rewrite E; auto.
Qed.

Lemma get_modify_ne k k' f o :
  k' <> k -> Obj.get k' (Obj.modify k f o) = Obj.get k' o.
Proof.
  intros Hne. induction o as [|[k0 v0] r IH]; simpl; [reflexivity|].
  destruct (String.eqb_spec k0 k) as [->|E]; simpl.
  - destruct (String.eqb_spec k k'); [congruence | reflexivity].
  - destruct (String.eqb k0 k'); [reflexivity | exact IH].
Qed.

Lemma get_modify k k' f o :
  Obj.get k' (Obj.modify k f o) =
  option_map (fun v => if String.eqb k k' then f v else v) (Obj.get k' o).
Proof.
  destruct (String.eqb_spec k k') as [->|Hne].
  - apply get_modify_eq.
  - rewrite get_modify_ne by congruence. now destruct (Obj.get k' o).
Qed.

Lemma get_del_eq k o : Obj.get k (Obj.del k o) = None.
Proof.
  induction o as [|[k' v'] r IH]; simpl; [reflexivity|].
  destruct (String.eqb k' k) eqn:E; simpl; [exact IH|].
  rewrite E. exact IH.
Qed.

Lemma get_del_ne k k' o :
  k' <> k -> Obj.get k' (Obj.del k o) = Obj.get k' o.
Proof.
  intros Hne. induction o as [|[k0 v0] r IH]; simpl; [reflexivity|].
  destruct (String.eqb_spec k0 k) as [->|E]; simpl.
  - destruct (String.eqb_spec k k'); [congruence | exact IH].
  - destruct (String.eqb k0 k'); [reflexivity | exact IH].
Qed.

Lemma set_absent k v o : Obj.get k o = None -> Obj.set k v o = o ++ [(k, v)].
Proof.
  induction o as [|[k' v'] r IH]; simpl; [reflexivity|].
  destruct (String.eqb k' k); [discriminate|].
  intros H. now rewrite IH.
Qed.

Lemma modify_fixed k f o :
  (forall v, Obj.get k o = Some v -> f v = v) -> Obj.modify k f o = o.
Proof.
  induction o as [|[k' v'] r IH]; simpl; [reflexivity|].
  destruct (String.eqb k' k); intros H.
  - now rewrite H.
  - now rewrite IH.
Qed.

End ObjFacts.

(** ** The two loops of [updateLinks], seen from one key *)

Lemma filter_twice {T : Type} (f : T -> bool) l :
  filter f (filter f l) = filter f l.
Proof.
  induction l as [|a l IH]; simpl; [reflexivity|].
  destruct (f a) eqn:E; simpl; [rewrite E, IH | rewrite IH]; reflexivity.
Qed.

Lemma removeBacklink_get noteId ns targetId k :
  Obj.get k (removeBacklink noteId ns targetId) =
  option_map
    (fun x => if String.eqb targetId k
              then Note.set_backlinks
                     (filter (not_id noteId) (Note.backlinks x)) x
              else x)
    (Obj.get k ns).
Proof.
  unfold removeBacklink.
  destruct (Obj.get targetId ns) as [target|] eqn:Et.
  - rewrite get_modify.
    destruct (String.eqb_spec targetId k) as [<-|Hne].
    + rewrite Et. reflexivity.
    + destruct (Obj.get k ns); reflexivity.
  - destruct (String.eqb_spec targetId k) as [<-|Hne].
    + rewrite Et. reflexivity.
    + destruct (Obj.get k ns); reflexivity.
Qed.

Lemma fold_removeBacklink_get noteId l ns k :
  Obj.get k (fold_left (removeBacklink noteId) l ns) =
  option_map
    (fun x => if JsSet.has k l
              then Note.set_backlinks
                     (filter (not_id noteId) (Note.backlinks x)) x
              else x)
    (Obj.get k ns).
Proof.
  revert ns. induction l as [|t l IH]; intros ns; simpl.
  - destruct (Obj.get k ns); reflexivity.
  - rewrite IH, removeBacklink_get.
    destruct (Obj.get k ns) as [x|]; simpl; [|reflexivity].
    destruct (String.eqb t k); [|reflexivity].
    destruct (JsSet.has k l); [|reflexivity].
    simpl. rewrite filter_twice. reflexivity.
Qed.

Lemma addBacklink_get noteId ns targetId k :
  Obj.get k (addBacklink noteId ns targetId) =
  option_map
    (fun x => if String.eqb targetId k && adds_backlink noteId k x
              then Note.set_backlinks (Note.backlinks x ++ [noteId]) x
              else x)
    (Obj.get k ns).
Proof.
  unfold addBacklink, adds_backlink.
  destruct (Obj.get targetId ns) as [target|] eqn:Et.
  - destruct (String.eqb_spec targetId k) as [<-|Hne].
    + rewrite Et. simpl.
      destruct (negb (String.eqb targetId noteId)); simpl;
        [|rewrite Et; reflexivity].
      destruct (negb (includes (Note.backlinks target) noteId)); simpl.
      * rewrite get_modify_eq, Et. reflexivity.
      * rewrite Et. reflexivity.
    + simpl.
      destruct (negb (String.eqb targetId noteId));
        [|destruct (Obj.get k ns); reflexivity].
      destruct (negb (includes (Note.backlinks target) noteId));
        [|destruct (Obj.get k ns); reflexivity].
      rewrite get_modify_ne by congruence.
      destruct (Obj.get k ns); reflexivity.
  - destruct (String.eqb_spec targetId k) as [<-|Hne].
    + rewrite Et. reflexivity.
    + destruct (Obj.get k ns); reflexivity.
Qed.

Lemma includes_snoc l x : includes (l ++ [x]) x = true.
Proof.
  unfold includes. apply has_In, in_app_iff. right. now left.
Qed.

Lemma fold_addBacklink_get noteId l ns k :
  Obj.get k (fold_left (addBacklink noteId) l ns) =
  option_map
    (fun x => if JsSet.has k l && adds_backlink noteId k x
              then Note.set_backlinks (Note.backlinks x ++ [noteId]) x
              else x)
    (Obj.get k ns).
Proof.
  revert ns. induction l as [|t l IH]; intros ns; simpl.
  - destruct (Obj.get k ns); reflexivity.
  - rewrite IH, addBacklink_get.
    destruct (Obj.get k ns) as [x|]; simpl; [|reflexivity].
    destruct (String.eqb t k); simpl; [|reflexivity].
    unfold adds_backlink.
    destruct (negb (String.eqb k noteId)); simpl.
    + destruct (negb (includes (Note.backlinks x) noteId)) eqn:E; simpl.
      * rewrite includes_snoc. simpl. rewrite andb_false_r. reflexivity.
      * rewrite E, andb_false_r. reflexivity.
    + rewrite andb_false_r. reflexivity.
Qed.

(** ** [updateLinks], seen from one key *)

Lemma updateLinks_get noteId newContent ns note k :
  Obj.get noteId ns = Some note ->
  Obj.get k (updateLinks_notes noteId newContent ns) =
  option_map (after_update noteId newContent note k) (Obj.get k ns).
Proof.
  intros H. unfold updateLinks_notes. rewrite H.
  rewrite get_modify, fold_addBacklink_get, fold_removeBacklink_get.
  destruct (Obj.get k ns); reflexivity.
Qed.

Lemma updateLinks_absent noteId newContent ns :
  Obj.get noteId ns = None -> updateLinks_notes noteId newContent ns = ns.
Proof. intros H. unfold updateLinks_notes. now rewrite H. Qed.

Lemma newLinks_parse content :
  JsSet.of_array (parseLinks content) = parseLinks content.
Proof. apply of_array_fixed, parseLinks_NoDup. Qed.

(** Membership in a difference [[...a].filter(id => !b.has(id))]. *)
Lemma diff_has k (a b : list string) :
  JsSet.has k (filter (fun id => negb (JsSet.has id b)) a) = true
  <-> In k a /\ ~ In k b.
Proof. rewrite has_In, filter_In, negb_true_iff, has_false. tauto. Qed.

Lemma after_update_links noteId newContent note k x :
  Note.links (after_update noteId newContent note k x) =
  if String.eqb noteId k then parseLinks newContent else Note.links x.
Proof.
  unfold after_update. rewrite newLinks_parse.
  destruct (String.eqb noteId k); simpl;
    repeat match goal with |- context [if ?b then _ else _] =>
      destruct b; simpl end; reflexivity.
Qed.

Lemma In_not_id a noteId l :
  In a (filter (not_id noteId) l) <-> In a l /\ a <> noteId.
Proof.
  rewrite filter_In. unfold not_id.
  destruct (String.eqb_spec a noteId); simpl; intuition congruence.
Qed.

(** Entries of other notes are left alone in every [backlinks]. *)
Lemma after_update_backlinks_other noteId newContent note k x a :
  a <> noteId ->
  In a (Note.backlinks (after_update noteId newContent note k x))
  <-> In a (Note.backlinks x).
Proof.
  intros Hne. unfold after_update.
  destruct (String.eqb noteId k); simpl;
    repeat match goal with |- context [if ?b then _ else _] =>
      destruct b; simpl end;
    rewrite ?in_app_iff, ?In_not_id; simpl; intuition congruence.
Qed.

(** The entry of [noteId] in the [backlinks] of the note under [k]. *)
Lemma after_update_backlinks_self noteId newContent note k x :
  In noteId (Note.backlinks (after_update noteId newContent note k x))
  <-> (k <> noteId /\ In k (parseLinks newContent)
       /\ ~ In k (Note.links note))
      \/ (In noteId (Note.backlinks x)
          /\ ~ (In k (Note.links note) /\ ~ In k (parseLinks newContent))).
Proof.
  unfold after_update. rewrite newLinks_parse.
  pose proof (diff_has k (JsSet.of_array (Note.links note))
                (parseLinks newContent)) as Hrm.
  pose proof (diff_has k (parseLinks newContent)
                (JsSet.of_array (Note.links note))) as Had.
  rewrite of_array_In in Hrm, Had.
  destruct (JsSet.has k (filter _ (JsSet.of_array (Note.links note))));
    destruct (JsSet.has k (filter _ (parseLinks newContent)));
    unfold adds_backlink, includes; simpl;
    destruct (String.eqb_spec k noteId) as [Ek|Ek]; simpl;
    try match goal with |- context [JsSet.has noteId ?l] =>
      let E := fresh "E" in
      destruct (JsSet.has noteId l) eqn:E;
      [apply has_In in E | apply has_false in E]; simpl end;
    destruct (String.eqb noteId k); simpl;
    rewrite ?in_app_iff; rewrite ?In_not_id in *; simpl;
    intuition congruence.
Qed.

(** ** The link graph *)

Lemma unmentioned_get id ns :
  unmentioned id ns = true -> Obj.get id ns = None.
Proof.
  unfold unmentioned. induction ns as [|[k v] r IH]; simpl; [reflexivity|].
  destruct (String.eqb k id); simpl; [discriminate|].
  rewrite negb_orb. intros H. apply andb_prop in H. apply IH, H.
Qed.

Lemma unmentioned_note id ns k x :
  unmentioned id ns = true -> Obj.get k ns = Some x ->
  ~ In id (Note.links x) /\ ~ In id (Note.backlinks x).
Proof.
  unfold unmentioned. induction ns as [|[k' v] r IH]; simpl; [discriminate|].
  rewrite negb_orb. intros H. apply andb_prop in H. destruct H as [H1 H2].
  destruct (String.eqb k' k).
  - intros E. inversion E; subst.
    rewrite !negb_orb in H1.
    apply andb_prop in H1. destruct H1 as [H1 Hb].
    apply andb_prop in H1. destruct H1 as [_ Hl].
    apply negb_true_iff in Hl, Hb.
    split; apply has_false; assumption.
  - apply IH, H2.
Qed.

(** A step that rewrites each stored note in place, keeping its [links]
    and [backlinks], keeps the graph. *)
Lemma symmetry_distinct_same_graph ns ns' (g : string -> Note.t -> Note.t) :
  (forall k, Obj.get k ns' = option_map (g k) (Obj.get k ns)) ->
  (forall k x, Note.links (g k x) = Note.links x
               /\ Note.backlinks (g k x) = Note.backlinks x) ->
  symmetry_distinct ns -> symmetry_distinct ns'.
Proof.
  intros Hget Hg Hs a b Hab A B HA HB.
  rewrite Hget in HA, HB.
  destruct (Obj.get a ns) as [A0|] eqn:EA; [|discriminate].
  destruct (Obj.get b ns) as [B0|] eqn:EB; [|discriminate].
  simpl in HA, HB. inversion HA; inversion HB; subst.
  destruct (Hg a A0) as [-> _]. destruct (Hg b B0) as [_ ->].
  exact (Hs a b Hab A0 B0 EA EB).
Qed.

Lemma updateLinks_symmetry_distinct noteId newContent ns :
  symmetry_distinct ns ->
  symmetry_distinct (updateLinks_notes noteId newContent ns).
Proof.
  intros Hs.
  destruct (Obj.get noteId ns) as [note|] eqn:En;
    [|rewrite (updateLinks_absent noteId newContent ns En); exact Hs].
  intros a b Hab A B HA HB.
  rewrite (updateLinks_get noteId newContent ns note a En) in HA.
  rewrite (updateLinks_get noteId newContent ns note b En) in HB.
  destruct (Obj.get a ns) as [A0|] eqn:EA; [|discriminate].
  destruct (Obj.get b ns) as [B0|] eqn:EB; [|discriminate].
  simpl in HA, HB. inversion HA; inversion HB; subst. clear HA HB.
  rewrite after_update_links.
  pose proof (Hs a b Hab A0 B0 EA EB) as Hab0.
  destruct (String.eqb_spec noteId a) as [<-|Hna].
  - rewrite after_update_backlinks_self.
    assert (note = A0) by congruence. subst A0.
    split.
    + intros Hin.
      destruct (in_dec string_dec b (Note.links note)) as [Ho|Ho].
      * right. split; [apply Hab0; exact Ho | tauto].
      * left. split; [congruence | tauto].
    + intros [[_ [Hin _]] | [Hb Hn]]; [exact Hin|].
      apply Hab0 in Hb.
      destruct (in_dec string_dec b (parseLinks newContent)); tauto.
  - rewrite after_update_backlinks_other by congruence. exact Hab0.
Qed.

Lemma modify_symmetry_distinct id (f : Note.t -> Note.t) ns :
  (forall x, Note.links (f x) = Note.links x
             /\ Note.backlinks (f x) = Note.backlinks x) ->
  symmetry_distinct ns -> symmetry_distinct (Obj.modify id f ns).
Proof.
  intros Hf.
  apply symmetry_distinct_same_graph
    with (g := fun k v => if String.eqb id k then f v else v).
  - intros k. apply get_modify.
  - intros k x. destruct (String.eqb id k); [apply Hf | split; reflexivity].
Qed.

Lemma set_fresh_symmetry_distinct id n ns :
  unmentioned id ns = true ->
  Note.links n = [] -> Note.backlinks n = [] ->
  symmetry_distinct ns -> symmetry_distinct (Obj.set id n ns).
Proof.
  intros Hu Hl Hb Hs a b Hab A B HA HB.
  destruct (string_dec a id) as [->|Ha]; destruct (string_dec b id) as [->|Hb'].
  - congruence.
  - rewrite get_set_eq in HA. rewrite get_set_ne in HB by exact Hb'.
    inversion HA; subst A. rewrite Hl.
    destruct (unmentioned_note id ns b B Hu HB) as [_ Hnb].
    simpl. tauto.
  - rewrite get_set_eq in HB. rewrite get_set_ne in HA by exact Ha.
    inversion HB; subst B. rewrite Hb.
    destruct (unmentioned_note id ns a A Hu HA) as [Hna _].
    simpl. tauto.
  - rewrite get_set_ne in HA by exact Ha. rewrite get_set_ne in HB by exact Hb'.
    exact (Hs a b Hab A B HA HB).
Qed.

(** *** Deletion, seen from one key *)

Lemma removeLink_get id ns backlinkId k :
  Obj.get k (removeLink id ns backlinkId) =
  option_map
    (fun x => if String.eqb backlinkId k
              then Note.set_links (filter (not_id id) (Note.links x)) x
              else x)
    (Obj.get k ns).
Proof.
  unfold removeLink.
  destruct (Obj.get backlinkId ns) as [source|] eqn:Es.
  - rewrite get_modify.
    destruct (String.eqb_spec backlinkId k) as [<-|Hne].
    + rewrite Es. reflexivity.
    + destruct (Obj.get k ns); reflexivity.
  - destruct (String.eqb_spec backlinkId k) as [<-|Hne].
    + rewrite Es. reflexivity.
    + destruct (Obj.get k ns); reflexivity.
Qed.

Lemma fold_removeLink_get id l ns k :
  Obj.get k (fold_left (removeLink id) l ns) =
  option_map
    (fun x => if JsSet.has k l
              then Note.set_links (filter (not_id id) (Note.links x)) x
              else x)
    (Obj.get k ns).
Proof.
  revert ns. induction l as [|t l IH]; intros ns; simpl.
  - destruct (Obj.get k ns); reflexivity.
  - rewrite IH, removeLink_get.
    destruct (Obj.get k ns) as [x|]; simpl; [|reflexivity].
    destruct (String.eqb t k); [|reflexivity].
    destruct (JsSet.has k l); [|reflexivity].
    unfold Note.set_links. simpl. rewrite filter_twice. reflexivity.
Qed.

Lemma deleteNote_get_eq id noteToDelete ns :
  Obj.get id (deleteNote_notes id noteToDelete ns) = None.
Proof. apply get_del_eq. Qed.

Lemma deleteNote_get_ne id noteToDelete ns k :
  k <> id ->
  Obj.get k (deleteNote_notes id noteToDelete ns) =
  option_map (after_delete id noteToDelete k) (Obj.get k ns).
Proof.
  intros Hne. unfold deleteNote_notes.
  rewrite get_del_ne by exact Hne. apply fold_removeLink_get.
Qed.

Lemma after_delete_backlinks id noteToDelete k x :
  Note.backlinks (after_delete id noteToDelete k x) = Note.backlinks x.
Proof.
  unfold after_delete.
  destruct (JsSet.has k (Note.backlinks noteToDelete)); reflexivity.
Qed.

Lemma after_delete_links id noteToDelete k x a :
  In a (Note.links (after_delete id noteToDelete k x))
  <-> In a (Note.links x)
      /\ (a <> id \/ ~ In k (Note.backlinks noteToDelete)).
Proof.
  unfold after_delete.
  destruct (JsSet.has k (Note.backlinks noteToDelete)) eqn:E; simpl.
  - apply has_In in E. rewrite In_not_id. tauto.
  - apply has_false in E. tauto.
Qed.

Lemma deleteNote_symmetry_distinct id noteToDelete ns :
  symmetry_distinct ns ->
  symmetry_distinct (deleteNote_notes id noteToDelete ns).
Proof.
  intros Hs a b Hab A B HA HB.
  destruct (string_dec a id) as [->|Ha];
    [rewrite deleteNote_get_eq in HA; discriminate|].
  destruct (string_dec b id) as [->|Hb];
    [rewrite deleteNote_get_eq in HB; discriminate|].
  rewrite deleteNote_get_ne in HA by exact Ha.
  rewrite deleteNote_get_ne in HB by exact Hb.
  destruct (Obj.get a ns) as [A0|] eqn:EA; [|discriminate].
  destruct (Obj.get b ns) as [B0|] eqn:EB; [|discriminate].
  simpl in HA, HB. inversion HA; inversion HB; subst. clear HA HB.
  rewrite after_delete_backlinks, after_delete_links.
  pose proof (Hs a b Hab A0 B0 EA EB). tauto.
Qed.

(** *** The request handler keeps the graph of distinct notes *)

Lemma templates_of_notes db k resp db' :
  templates_of db k = Ok (resp, Some db') ->
  exists ts, templates db = Some ts /\ k ts = Ok (resp, Some db').
Proof.
  unfold templates_of. destruct (templates db) as [ts|]; [|discriminate].
  intros H. exists ts. split; [reflexivity | exact H].
Qed.

Lemma insert_note_symmetry_distinct env b noteContent db resp db' :
  unmentioned (randomUUID env) (notes db) = true ->
  symmetry_distinct (notes db) ->
  insert_note env b noteContent db = Ok (resp, Some db') ->
  symmetry_distinct (notes db').
Proof.
  intros Hu Hs. unfold insert_note.
  destruct (String.eqb noteContent "" && negb (truthy (b_content b)));
    [discriminate|].
  intros H. inversion H; subst. simpl.
  apply updateLinks_symmetry_distinct.
  apply set_fresh_symmetry_distinct; [exact Hu | reflexivity .. | exact Hs].
Qed.

Lemma route_symmetry_distinct env req db resp db' :
  (creates_note req = true -> unmentioned (randomUUID env) (notes db) = true) ->
  symmetry_distinct (notes db) ->
  route env req db = Ok (resp, Some db') ->
  symmetry_distinct (notes db').
Proof.
  intros Hu Hs.
  destruct req as [b| |id|id b|id| | |id|b|id b|id|]; simpl;
    try specialize (Hu eq_refl).
  - unfold create_template.
    destruct (negb (truthy (b_title b)) || negb (truthy (b_content b)));
      [discriminate|].
    intros H. apply templates_of_notes in H. destruct H as [ts [_ H]].
    inversion H; subst. exact Hs.
  - intros H. apply templates_of_notes in H. destruct H as [ts [_ H]].
    discriminate.
  - intros H. apply templates_of_notes in H. destruct H as [ts [_ H]].
    destruct (Obj.get id ts); discriminate.
  - intros H. apply templates_of_notes in H. destruct H as [ts [_ H]].
    destruct (Obj.get id ts); [|discriminate].
    inversion H; subst. exact Hs.
  - intros H. apply templates_of_notes in H. destruct H as [ts [_ H]].
    destruct (Obj.get id ts); [|discriminate].
    inversion H; subst. exact Hs.
  - discriminate.
  - unfold daily_note. destruct (find _ _); [discriminate|].
    intros H. inversion H; subst. simpl.
    apply set_fresh_symmetry_distinct; [exact Hu | reflexivity .. | exact Hs].
  - unfold read_note. destruct (Obj.get id (notes db)); discriminate.
  - unfold create_note. destruct (negb (truthy (b_title b))); [discriminate|].
    destruct (truthy (b_templateId b)).
    + intros H. apply templates_of_notes in H. destruct H as [ts [_ H]].
      destruct (Obj.get _ ts); [|discriminate].
      exact (insert_note_symmetry_distinct env b _ db resp db' Hu Hs H).
    + apply insert_note_symmetry_distinct; assumption.
  - unfold update_note. destruct (Obj.get id (notes db)) as [note|];
      [|discriminate].
    intros H. inversion H; subst. clear H. simpl.
    apply modify_symmetry_distinct; [intros x; split; reflexivity|].
    destruct (truthy (b_content b)); simpl.
    + apply updateLinks_symmetry_distinct.
      apply modify_symmetry_distinct; [intros x; split; reflexivity | exact Hs].
    + apply modify_symmetry_distinct; [intros x; split; reflexivity | exact Hs].
  - unfold delete_note. destruct (Obj.get id (notes db)) as [d|];
      [|discriminate].
    intros H. inversion H; subst. simpl.
    apply deleteNote_symmetry_distinct. exact Hs.
  - discriminate.
Qed.

(** ** Sequences of requests *)

Lemma empty_symmetry_distinct : symmetry_distinct [].
Proof. intros a b _ A B HA. discriminate. Qed.

Lemma server_symmetry_distinct env req disk :
  fresh_for env req disk = true ->
  disk_symmetry_distinct disk ->
  disk_symmetry_distinct (snd (server env req disk)).
Proof.
  intros Hf Hs. unfold server, fresh_for in *.
  destruct disk as [db|]; simpl.
  - destruct (route env req db) as [[resp [db'|]]|e] eqn:E; simpl in *.
    + apply (route_symmetry_distinct env req db resp db'); [|exact Hs|exact E].
      intros Hc. rewrite Hc in Hf. exact Hf.
    + exact Hs.
    + exact Hs.
  - destruct (route env req initialDb) as [[resp [db'|]]|e] eqn:E; simpl.
    + apply (route_symmetry_distinct env req initialDb resp db');
        [reflexivity | exact empty_symmetry_distinct | exact E].
    + exact empty_symmetry_distinct.
    + exact empty_symmetry_distinct.
Qed.

Lemma run_symmetry_distinct trace disk :
  fresh_trace trace disk = true ->
  disk_symmetry_distinct disk ->
  disk_symmetry_distinct (run trace disk).
Proof.
  revert disk. induction trace as [|[env req] rest IH]; simpl; intros disk.
  - intros _ H. exact H.
  - intros Hf Hs. apply andb_prop in Hf. destruct Hf as [Hf Hr].
    apply IH; [exact Hr|]. apply server_symmetry_distinct; assumption.
Qed.

Lemma empty_start_symmetry_distinct disk :
  empty_start disk = true -> disk_symmetry_distinct disk.
Proof.
  destruct disk as [db|]; simpl; [|tauto].
  destruct (notes db); [intros _; exact empty_symmetry_distinct | discriminate].
Qed.

(** * The claims *)

(** ** C1: graph symmetry *)

(** C1, as stated, is false: after [POST /api/notes] and a
    [PUT /api/notes/:id] whose content holds the marker of the note's own
    identifier, the note is in its own [links] and not in its own
    [backlinks], so the pair (A, A) breaks the equivalence. *)
Lemma symmetry_fails_on_self_reference :
  ~ (forall start trace db,
        empty_start start = true ->
        fresh_trace trace start = true ->
        run trace start = Some db ->
        symmetry (notes db)).
Proof.
  intros H.
  pose (trace :=
          [(Sample.env Sample.idA, POST_notes (Sample.body "A" "first"));
           (Sample.env Sample.idB,
            PUT_note Sample.idA
              (Sample.content_only (marker Sample.idA)))]).
  destruct (run trace None) as [db|] eqn:E; [|discriminate].
  specialize (H None trace db eq_refl eq_refl E Sample.idA Sample.idA).
  vm_compute in E. inversion E; subst db. clear E.
  unfold symmetric_at in H. simpl in H.
  specialize (H _ _ eq_refl eq_refl).
  destruct H as [H _]. destruct H. left. reflexivity.
Qed.

(** C1, amended: after every sequence of requests handled from an empty
    collection, in which each identifier drawn for a new record occurs
    nowhere in the stored notes, any two different stored notes A and B
    satisfy: B's identifier is in A's [links] if and only if A's identifier
    is in B's [backlinks]. *)
Theorem symmetry_distinct_after_requests :
  forall start trace db,
    empty_start start = true ->
    fresh_trace trace start = true ->
    run trace start = Some db ->
    symmetry_distinct (notes db).
Proof.
  intros start trace db Hstart Hfresh Hrun.
  pose proof (run_symmetry_distinct trace start Hfresh
                (empty_start_symmetry_distinct start Hstart)) as H.
  rewrite Hrun in H. exact H.
Qed.

Lemma symmetry_distinct_after_requests_witness :
  empty_start None = true
  /\ fresh_trace Sample.trace_linked None = true
  /\ run Sample.trace_linked None = Some Sample.linked
  /\ symmetry_distinct (notes Sample.linked).
Proof.
  split; [reflexivity|]. split; [reflexivity|]. split; [reflexivity|].
  apply (symmetry_distinct_after_requests None Sample.trace_linked);
    reflexivity.
Defined.

(** ** C2: deletion cascade *)

(** What [DELETE /api/notes/:id] does to the notes that survive: the
    identifier leaves the [links] of every note listed in the deleted note's
    [backlinks], and no [backlinks] array changes. *)
Lemma delete_note_effect id db noteToDelete :
  Obj.get id (notes db) = Some noteToDelete ->
  exists db',
    delete_note id db = Ok (mkResponse 204 JNothing, Some db')
    /\ Obj.get id (notes db') = None
    /\ forall k x,
         k <> id -> Obj.get k (notes db) = Some x ->
         exists x',
           Obj.get k (notes db') = Some x'
           /\ Note.backlinks x' = Note.backlinks x
           /\ (In k (Note.backlinks noteToDelete) -> ~ In id (Note.links x'))
           /\ (forall a, a <> id ->
                         (In a (Note.links x') <-> In a (Note.links x))).
Proof.
  intros Hd. unfold delete_note. rewrite Hd. eexists. split; [reflexivity|].
  simpl. split; [apply deleteNote_get_eq|].
  intros k x Hk Hx. exists (after_delete id noteToDelete k x).
  rewrite deleteNote_get_ne by exact Hk. rewrite Hx.
  split; [reflexivity|]. split; [apply after_delete_backlinks|]. split.
  - intros Hin Hl. apply after_delete_links in Hl. tauto.
  - intros a Ha. rewrite after_delete_links. tauto.
Qed.

(** C2 at its failing input: B references A, so A's [backlinks] list B.
    Deleting B answers 204 and removes B's record, and A's [backlinks]
    still list B: the handler sweeps the [links] of the notes in
    [noteToDelete.backlinks] and no [backlinks] array
    ([delete_note_effect]). *)
Theorem delete_keeps_backlink_of_deleted_note :
  let out :=
    server (Sample.env Sample.idX) (DELETE_note Sample.idB)
      (Some Sample.linked) in
  status (fst out) = 204
  /\ links_of (snd out) Sample.idB = None
  /\ backlinks_of (snd out) Sample.idA = Some [Sample.idB].
Proof. repeat split. Qed.

(** ** C3: update to a content without references *)

Lemma parseLinks_empty : parseLinks "" = [].
Proof. reflexivity. Qed.

(** An update of B to a content without markers, when B referenced A
    alone and A was referenced by B alone. *)
Lemma updateLinks_to_no_links ns a b A B newContent :
  a <> b ->
  Obj.get a ns = Some A -> Obj.get b ns = Some B ->
  Note.links B = [a] -> Note.backlinks A = [b] ->
  parseLinks newContent = [] ->
  exists A' B',
    Obj.get a (updateLinks_notes b newContent ns) = Some A'
    /\ Obj.get b (updateLinks_notes b newContent ns) = Some B'
    /\ Note.backlinks A' = [] /\ Note.links B' = [].
Proof.
  intros Hab HA HB HlB HbA Hp.
  exists (after_update b newContent B a A), (after_update b newContent B b B).
  rewrite !(updateLinks_get b newContent ns B) by exact HB.
  rewrite HA, HB. split; [reflexivity|]. split; [reflexivity|]. split.
  - unfold after_update. rewrite Hp, HlB. simpl.
    rewrite String.eqb_refl. simpl.
    destruct (String.eqb_spec b a) as [E|_]; [congruence|].
    simpl. rewrite HbA. simpl. unfold not_id.
    rewrite String.eqb_refl. reflexivity.
  - rewrite after_update_links, String.eqb_refl. exact Hp.
Qed.

(** C3, as stated for the operation that updates a note's content, is
    false: [PUT /api/notes/:id] with content [""] on B leaves B's [links]
    and A's [backlinks] as they were. *)
Lemma put_empty_content_keeps_links :
  let disk' :=
    snd (server (Sample.env Sample.idX)
           (PUT_note Sample.idB (Sample.content_only ""))
           (Some Sample.scenario)) in
  ~ (backlinks_of disk' Sample.idA = Some []
     /\ links_of disk' Sample.idB = Some []).
Proof. simpl. intros [H _]. discriminate. Qed.

(** C3, amended: in a store where B's [links] are [[A.id]] and A's
    [backlinks] are [[B.id]], [updateLinks] applied to B with the new
    content [""], and [PUT /api/notes/:id] on B with any content that is not
    empty and holds no marker, leave A's [backlinks] and B's [links] empty;
    a [PUT] whose content is [""] takes the content as missing: it keeps B's
    content, B's [links] and A's [backlinks]. *)
Theorem update_to_empty :
  forall db a b A B,
    a <> b ->
    Obj.get a (notes db) = Some A -> Obj.get b (notes db) = Some B ->
    Note.links B = [a] -> Note.backlinks A = [b] ->
    (exists A' B',
        Obj.get a (notes (updateLinks b "" db)) = Some A'
        /\ Obj.get b (notes (updateLinks b "" db)) = Some B'
        /\ Note.backlinks A' = [] /\ Note.links B' = [])
    /\ (forall env title templateId newContent,
           newContent <> "" -> parseLinks newContent = [] ->
           exists resp db' A' B',
             update_note env b (mkBody title (Some newContent) templateId) db
             = Ok (resp, Some db')
             /\ Obj.get a (notes db') = Some A'
             /\ Obj.get b (notes db') = Some B'
             /\ Note.backlinks A' = [] /\ Note.links B' = []
             /\ Note.content B' = newContent)
    /\ (forall env title templateId,
           exists resp db' B',
             update_note env b (mkBody title (Some "") templateId) db
             = Ok (resp, Some db')
             /\ Obj.get a (notes db') = Some A
             /\ Obj.get b (notes db') = Some B'
             /\ Note.links B' = [a]
             /\ Note.content B' = Note.content B).
Proof.
  intros db a b A B Hab HA HB HlB HbA. split; [|split].
  - exact (updateLinks_to_no_links (notes db) a b A B "" Hab HA HB HlB HbA
             parseLinks_empty).
  - intros env title templateId newContent Hne Hp.
    unfold update_note. rewrite HB. simpl.
    destruct (String.eqb_spec newContent "") as [E|_]; [contradiction|].
    simpl.
    set (ns1 := Obj.modify b
                  (Note.set_title (or_else title (Note.title B))) (notes db)).
    assert (HA1 : Obj.get a ns1 = Some A).
    { unfold ns1. rewrite get_modify_ne by exact Hab. exact HA. }
    assert (HB1 : Obj.get b ns1
                  = Some (Note.set_title (or_else title (Note.title B)) B)).
    { unfold ns1. rewrite get_modify_eq, HB. reflexivity. }
    destruct (updateLinks_to_no_links ns1 a b A _ newContent Hab HA1 HB1
                HlB HbA Hp) as [A' [B' [HA' [HB' [Hb' Hl']]]]].
    eexists _, _, A', _. split; [reflexivity|]. simpl.
    rewrite get_modify_ne by exact Hab. rewrite get_modify_eq.
    fold ns1. rewrite HA', HB'. simpl.
    repeat split; assumption.
  - intros env title templateId.
    unfold update_note. rewrite HB. simpl.
    eexists _, _, _. split; [reflexivity|]. simpl.
    rewrite !get_modify_ne by exact Hab. rewrite !get_modify_eq, HB. simpl.
    repeat split; assumption.
Qed.

Lemma update_to_empty_witness :
  Sample.idA <> Sample.idB
  /\ exists A' B',
       Obj.get Sample.idA (notes (updateLinks Sample.idB "" Sample.scenario))
       = Some A'
       /\ Obj.get Sample.idB (notes (updateLinks Sample.idB "" Sample.scenario))
          = Some B'
       /\ Note.backlinks A' = [] /\ Note.links B' = [].
Proof.
  split; [discriminate|].
  refine (proj1 (update_to_empty Sample.scenario Sample.idA Sample.idB
                   _ _ _ eq_refl eq_refl eq_refl eq_refl)).
  discriminate.
Defined.

(** ** C4: no self-backreference *)

(** [updateLinks] on a note either leaves the note's own [backlinks] or
    filters the note's identifier out of them. *)
Lemma after_update_backlinks_own noteId newContent note x :
  Note.backlinks (after_update noteId newContent note noteId x)
  = Note.backlinks x
  \/ Note.backlinks (after_update noteId newContent note noteId x)
     = filter (not_id noteId) (Note.backlinks x).
Proof.
  unfold after_update, adds_backlink.
  rewrite String.eqb_refl. simpl. rewrite andb_false_r.
  match goal with |- context [if ?b then _ else _] => destruct b end;
    simpl; [right | left]; reflexivity.
Qed.

Lemma after_update_not_added noteId newContent note x :
  In noteId (Note.backlinks (after_update noteId newContent note noteId x)) ->
  In noteId (Note.backlinks x).
Proof.
  destruct (after_update_backlinks_own noteId newContent note x) as [-> | ->].
  - tauto.
  - rewrite In_not_id. tauto.
Qed.

Lemma insert_note_result env b noteContent db resp db' :
  insert_note env b noteContent db = Ok (resp, Some db') ->
  exists n,
    Obj.get (randomUUID env) (notes db') = Some n
    /\ resp = mkResponse 201 (JNote n)
    /\ Note.backlinks n = []
    /\ Note.links n = parseLinks noteContent
    /\ Note.content n = noteContent.
Proof.
  unfold insert_note.
  destruct (String.eqb noteContent "" && negb (truthy (b_content b)));
    [discriminate|].
  intros H. inversion H; subst. clear H. simpl.
  set (id := randomUUID env).
  set (newNote := Note.mk id _ _ _ _ _ _).
  rewrite (updateLinks_get id noteContent _ newNote id)
    by apply get_set_eq.
  rewrite get_set_eq. simpl.
  exists (after_update id noteContent newNote id newNote).
  split; [reflexivity|]. split; [reflexivity|]. split; [|split].
  - destruct (after_update_backlinks_own id noteContent newNote newNote)
      as [-> | ->]; reflexivity.
  - rewrite after_update_links, String.eqb_refl. reflexivity.
  - unfold after_update. rewrite String.eqb_refl.
    repeat match goal with |- context [if ?c then _ else _] =>
      destruct c; simpl end; reflexivity.
Qed.

Lemma create_note_result env b db resp db' :
  create_note env b db = Ok (resp, Some db') ->
  exists n,
    Obj.get (randomUUID env) (notes db') = Some n
    /\ resp = mkResponse 201 (JNote n)
    /\ Note.backlinks n = []
    /\ Note.links n = parseLinks (Note.content n).
Proof.
  unfold create_note. destruct (negb (truthy (b_title b))); [discriminate|].
  destruct (truthy (b_templateId b)).
  - intros H. apply templates_of_notes in H. destruct H as [ts [_ H]].
    destruct (Obj.get _ ts) as [template|]; [|discriminate].
    apply insert_note_result in H.
    destruct H as [n [H1 [H2 [H3 [H4 H5]]]]].
    exists n. rewrite H5. auto.
  - intros H. apply insert_note_result in H.
    destruct H as [n [H1 [H2 [H3 [H4 H5]]]]].
    exists n. rewrite H5. auto.
Qed.

(** The record of [id] after [PUT /api/notes/:id] with a content that is
    not empty. *)
Lemma update_note_result env id b db note newContent :
  Obj.get id (notes db) = Some note ->
  b_content b = Some newContent -> newContent <> "" ->
  exists db' note',
    update_note env id b db = Ok (mkResponse 200 (JNote note'), Some db')
    /\ Obj.get id (notes db') = Some note'
    /\ Note.links note' = parseLinks newContent
    /\ Note.content note' = newContent
    /\ (In id (Note.backlinks note') -> In id (Note.backlinks note)).
Proof.
  intros Hn Hc Hne. unfold update_note. rewrite Hn, Hc. simpl.
  destruct (String.eqb_spec newContent "") as [E|_]; [contradiction|].
  simpl.
  unfold updateLinks, set_notes. cbn [notes templates].
  set (f1 := Note.set_title (or_else (b_title b) (Note.title note))).
  rewrite !get_modify_eq.
  rewrite !(updateLinks_get id newContent _ (f1 note) id)
    by (rewrite get_modify_eq, Hn; reflexivity).
  rewrite !get_modify_eq, Hn. simpl.
  eexists _, _. split; [reflexivity|]. cbn [notes].
  rewrite !get_modify_eq.
  rewrite !(updateLinks_get id newContent _ (f1 note) id)
    by (rewrite get_modify_eq, Hn; reflexivity).
  rewrite !get_modify_eq, Hn. simpl.
  split; [reflexivity|]. split; [|split].
  - rewrite after_update_links, String.eqb_refl. reflexivity.
  - reflexivity.
  - intros H. apply after_update_not_added in H. exact H.
Qed.

(** C4: [updateLinks] on a stored note never adds the note's identifier
    to the note's own [backlinks], while the identifier is in the note's
    [links] whenever the new content holds its marker; the same holds of
    [PUT /api/notes/:id], and a note created by [POST /api/notes] has empty
    [backlinks] and the [links] its content extracts to. *)
Theorem no_self_backreference :
  forall db id note newContent,
    Obj.get id (notes db) = Some note ->
    newContent <> "" ->
    (exists note',
        Obj.get id (notes (updateLinks id newContent db)) = Some note'
        /\ (In id (Note.backlinks note') -> In id (Note.backlinks note))
        /\ Note.links note' = parseLinks newContent
        /\ (forall pre post,
               link_id id = true ->
               newContent = (pre ++ marker id ++ post)%string ->
               In id (Note.links note')))
    /\ (forall env title templateId,
           exists db' note',
             update_note env id (mkBody title (Some newContent) templateId) db
             = Ok (mkResponse 200 (JNote note'), Some db')
             /\ Obj.get id (notes db') = Some note'
             /\ (In id (Note.backlinks note') -> In id (Note.backlinks note))
             /\ (forall pre post,
                    link_id id = true ->
                    newContent = (pre ++ marker id ++ post)%string ->
                    In id (Note.links note')))
    /\ (forall env b resp db',
           create_note env b db = Ok (resp, Some db') ->
           exists n,
             Obj.get (randomUUID env) (notes db') = Some n
             /\ Note.backlinks n = []
             /\ Note.links n = parseLinks (Note.content n)).
Proof.
  intros db id note newContent Hn Hne. split; [|split].
  - exists (after_update id newContent note id note). simpl.
    rewrite (updateLinks_get id newContent (notes db) note id Hn), Hn.
    split; [reflexivity|]. split; [apply after_update_not_added|].
    assert (Hl : Note.links (after_update id newContent note id note)
                 = parseLinks newContent)
      by (rewrite after_update_links, String.eqb_refl; reflexivity).
    split; [exact Hl|].
    intros pre post Hid ->. rewrite Hl. apply parseLinks_marker, Hid.
  - intros env title templateId.
    destruct (update_note_result env id
                (mkBody title (Some newContent) templateId) db note newContent
                Hn eq_refl Hne) as [db' [note' [H1 [H2 [H3 [_ H5]]]]]].
    exists db', note'. split; [exact H1|]. split; [exact H2|].
    split; [exact H5|].
    intros pre post Hid ->. rewrite H3. apply parseLinks_marker, Hid.
  - intros env b resp db' H. apply create_note_result in H.
    destruct H as [n [H1 [_ [H3 H4]]]]. exists n. auto.
Qed.

Lemma no_self_backreference_witness :
  exists note',
    Obj.get Sample.idA
      (notes (updateLinks Sample.idA ("me: " ++ marker Sample.idA)
                Sample.linked)) = Some note'
    /\ (In Sample.idA (Note.backlinks note')
        -> In Sample.idA (Note.backlinks Sample.noteA))
    /\ Note.links note' = [Sample.idA].
Proof.
  destruct (no_self_backreference Sample.linked Sample.idA Sample.noteA
              ("me: " ++ marker Sample.idA) eq_refl)
    as [[note' [H1 [H2 [H3 _]]]] _]; [discriminate|].
  exists note'. split; [exact H1|]. split; [exact H2 | exact H3].
Defined.

(** ** C5: dangling references *)

Lemma created_get_own env title content db :
  exists n,
    Obj.get (randomUUID env) (notes (created env title content db)) = Some n
    /\ Note.links n = parseLinks content
    /\ Note.backlinks n = [].
Proof.
  unfold created. simpl.
  rewrite (updateLinks_get (randomUUID env) content _ _ _ (get_set_eq _ _ _)).
  rewrite get_set_eq. simpl. eexists. split; [reflexivity|]. split.
  - rewrite after_update_links, String.eqb_refl. reflexivity.
  - match goal with |- Note.backlinks (after_update ?i ?c ?n ?i ?x) = _ =>
      destruct (after_update_backlinks_own i c n x) as [-> | ->] end;
      reflexivity.
Qed.

Lemma create_note_plain env title content db :
  title <> "" -> content <> "" ->
  exists n,
    create_note env (mkBody (Some title) (Some content) None) db
    = Ok (mkResponse 201 (JNote n), Some (created env title content db))
    /\ Obj.get (randomUUID env) (notes (created env title content db))
       = Some n.
Proof.
  intros Ht Hc. apply String.eqb_neq in Ht, Hc.
  destruct (created_get_own env title content db) as [n [Hn _]].
  exists n. split; [|exact Hn].
  unfold create_note, insert_note. simpl.
  rewrite Ht, Hc. simpl. rewrite Hc. simpl.
  unfold created in Hn. simpl in Hn. rewrite Hn. reflexivity.
Qed.

Lemma created_get_other env title content db k :
  k <> randomUUID env ->
  Obj.get k (notes (created env title content db))
  = option_map
      (after_update (randomUUID env) content
         (Note.mk (randomUUID env) title content
            (toISOString env 0) (toISOString env 1) [] []) k)
      (Obj.get k (notes db)).
Proof.
  intros Hk. unfold created. simpl.
  rewrite (updateLinks_get (randomUUID env) content _ _ _ (get_set_eq _ _ _)).
  rewrite get_set_ne by exact Hk. reflexivity.
Qed.

Lemma parseLinks_nonempty content x : In x (parseLinks content) -> content <> "".
Proof. intros H ->. exact H. Qed.

(** An entry [a] in some [backlinks] after a request that neither edits
    the content of [a] nor creates [a] was there before the request. *)
Lemma route_backlinks_other env req db resp db' a :
  edits a req = false -> randomUUID env <> a ->
  route env req db = Ok (resp, Some db') ->
  forall k x', Obj.get k (notes db') = Some x' ->
               In a (Note.backlinks x') ->
               exists x, Obj.get k (notes db) = Some x
                         /\ In a (Note.backlinks x).
Proof.
  intros He Hid.
  assert (Hins : forall b c resp db',
             insert_note env b c db = Ok (resp, Some db') ->
             forall k x', Obj.get k (notes db') = Some x' ->
                          In a (Note.backlinks x') ->
                          exists x, Obj.get k (notes db) = Some x
                                    /\ In a (Note.backlinks x)).
  { intros b c r d H k x' Hk Hin.
    destruct (string_dec k (randomUUID env)) as [->|Hne].
    - apply insert_note_result in H. destruct H as [n [Hn [_ [Hb _]]]].
      rewrite Hn in Hk. inversion Hk; subst. rewrite Hb in Hin. destruct Hin.
    - unfold insert_note in H.
      destruct (String.eqb c "" && negb (truthy (b_content b)));
        [discriminate|].
      inversion H; subst. clear H. simpl in Hk.
      rewrite (updateLinks_get (randomUUID env) c _ _ _ (get_set_eq _ _ _))
        in Hk.
      rewrite get_set_ne in Hk by exact Hne.
      destruct (Obj.get k (notes db)) as [x|]; [|discriminate].
      simpl in Hk. inversion Hk; subst. exists x. split; [reflexivity|].
      apply after_update_backlinks_other in Hin; [exact Hin | congruence]. }
  destruct req as [b| |id|id b|id| | |id|b|id b|id|]; simpl; intros H k x' Hk Hin.
  - unfold create_template in H.
    destruct (negb (truthy (b_title b)) || negb (truthy (b_content b)));
      [discriminate|].
    apply templates_of_notes in H. destruct H as [ts [_ H]].
    inversion H; subst. exists x'. split; assumption.
  - apply templates_of_notes in H. destruct H as [ts [_ H]]. discriminate.
  - apply templates_of_notes in H. destruct H as [ts [_ H]].
    destruct (Obj.get id ts); discriminate.
  - apply templates_of_notes in H. destruct H as [ts [_ H]].
    destruct (Obj.get id ts); [|discriminate].
    inversion H; subst. exists x'. split; assumption.
  - apply templates_of_notes in H. destruct H as [ts [_ H]].
    destruct (Obj.get id ts); [|discriminate].
    inversion H; subst. exists x'. split; assumption.
  - discriminate.
  - unfold daily_note in H. destruct (find _ _); [discriminate|].
    inversion H; subst. clear H. simpl in Hk.
    destruct (string_dec k (randomUUID env)) as [->|Hne].
    + rewrite get_set_eq in Hk. inversion Hk; subst. destruct Hin.
    + rewrite get_set_ne in Hk by exact Hne. exists x'. split; assumption.
  - unfold read_note in H. destruct (Obj.get id (notes db)); discriminate.
  - unfold create_note in H.
    destruct (negb (truthy (b_title b))); [discriminate|].
    destruct (truthy (b_templateId b)).
    + apply templates_of_notes in H. destruct H as [ts [_ H]].
      destruct (Obj.get _ ts); [|discriminate].
      exact (Hins _ _ _ _ H k x' Hk Hin).
    + exact (Hins _ _ _ _ H k x' Hk Hin).
  - unfold update_note in H.
    destruct (Obj.get id (notes db)) as [note|] eqn:En; [|discriminate].
    inversion H; subst. clear H. cbn [notes set_notes] in Hk.
    rewrite get_modify in Hk.
    simpl in He.
    destruct (truthy (b_content b)) eqn:Et.
    + rewrite andb_true_r in He.
      destruct (String.eqb_spec id a) as [|Hne]; [discriminate|].
      unfold updateLinks in Hk. cbn [notes set_notes] in Hk.
      rewrite (updateLinks_get id _ _
                 (Note.set_title (or_else (b_title b) (Note.title note)) note))
        in Hk by (rewrite get_modify_eq, En; reflexivity).
      rewrite get_modify in Hk.
      destruct (Obj.get k (notes db)) as [x|]; [|discriminate].
      simpl in Hk. inversion Hk; subst. clear Hk.
      exists x. split; [reflexivity|].
      destruct (String.eqb id k); simpl in Hin;
        apply after_update_backlinks_other in Hin; try congruence;
        exact Hin.
    + cbn [notes set_notes] in Hk. rewrite get_modify in Hk.
      destruct (Obj.get k (notes db)) as [x|]; [|discriminate].
      simpl in Hk. inversion Hk; subst. clear Hk.
      exists x. split; [reflexivity|].
      destruct (String.eqb id k); exact Hin.
  - unfold delete_note in H.
    destruct (Obj.get id (notes db)) as [d|]; [|discriminate].
    inversion H; subst. clear H. simpl in Hk.
    destruct (string_dec k id) as [->|Hne];
      [rewrite deleteNote_get_eq in Hk; discriminate|].
    rewrite deleteNote_get_ne in Hk by exact Hne.
    destruct (Obj.get k (notes db)) as [x|]; [|discriminate].
    simpl in Hk. inversion Hk; subst.
    rewrite after_delete_backlinks in Hin. exists x. split; [reflexivity|].
    exact Hin.
  - discriminate.
Qed.

(** C5: a note A created with a content that references an identifier X
    without record has X in its [links]; X still has no record, and the
    only new [backlinks] entries are entries for A in stored notes that the
    content names.  Creating X afterwards leaves X's [backlinks] empty while
    X stays in A's [links]; and no request other than an edit of A's content
    puts A in X's [backlinks]. *)
Theorem dangling_then_resolved :
  forall db envA titleA contentA X,
    titleA <> "" ->
    In X (parseLinks contentA) ->
    Obj.get X (notes db) = None ->
    X <> randomUUID envA ->
    let a := randomUUID envA in
    let db1 := created envA titleA contentA db in
    (exists A,
        create_note envA (mkBody (Some titleA) (Some contentA) None) db
        = Ok (mkResponse 201 (JNote A), Some db1)
        /\ Obj.get a (notes db1) = Some A
        /\ In X (Note.links A))
    /\ Obj.get X (notes db1) = None
    /\ (forall k x1 i,
           k <> a -> Obj.get k (notes db1) = Some x1 ->
           In i (Note.backlinks x1) ->
           exists x0,
             Obj.get k (notes db) = Some x0
             /\ (In i (Note.backlinks x0)
                 \/ (i = a /\ In k (parseLinks contentA))))
    /\ (forall envX titleX contentX,
           randomUUID envX = X -> titleX <> "" -> contentX <> "" ->
           let db2 := created envX titleX contentX db1 in
           exists NX A2,
             create_note envX (mkBody (Some titleX) (Some contentX) None) db1
             = Ok (mkResponse 201 (JNote NX), Some db2)
             /\ Obj.get X (notes db2) = Some NX
             /\ Note.backlinks NX = []
             /\ Obj.get a (notes db2) = Some A2
             /\ In X (Note.links A2))
    /\ (forall d env req resp d' NX',
           edits a req = false -> randomUUID env <> a ->
           route env req d = Ok (resp, Some d') ->
           Obj.get X (notes d') = Some NX' ->
           In a (Note.backlinks NX') ->
           exists NX, Obj.get X (notes d) = Some NX
                      /\ In a (Note.backlinks NX)).
Proof.
  intros db envA titleA contentA X Ht HX Hno Hne a db1.
  pose proof (parseLinks_nonempty contentA X HX) as Hc.
  destruct (create_note_plain envA titleA contentA db Ht Hc) as [A [HcA HgA]].
  destruct (created_get_own envA titleA contentA db) as [A' [HgA' [HlA _]]].
  fold a db1 in HcA, HgA, HgA'.
  assert (A' = A) by congruence. subst A'.
  assert (HXA : In X (Note.links A)) by (rewrite HlA; exact HX).
  split; [exists A; auto|].
  split.
  { unfold db1. rewrite created_get_other by exact Hne. rewrite Hno.
    reflexivity. }
  split.
  { intros k x1 i Hk Hg Hi. unfold db1 in Hg.
    rewrite created_get_other in Hg by exact Hk.
    destruct (Obj.get k (notes db)) as [x0|]; [|discriminate].
    simpl in Hg. inversion Hg; subst x1. clear Hg.
    exists x0. split; [reflexivity|].
    destruct (string_dec i a) as [->|Hia].
    - apply after_update_backlinks_self in Hi. simpl in Hi.
      destruct Hi as [[_ [Hin _]] | [Hin _]]; [right | left]; auto.
    - left. apply after_update_backlinks_other in Hi; [exact Hi | exact Hia]. }
  split.
  { intros envX titleX contentX HidX HtX HcX db2.
    destruct (create_note_plain envX titleX contentX db1 HtX HcX)
      as [NX [HcNX HgNX]].
    destruct (created_get_own envX titleX contentX db1)
      as [NX' [HgNX' [_ HbNX]]].
    fold db2 in HcNX, HgNX, HgNX'. rewrite HidX in HgNX, HgNX'.
    assert (NX' = NX) by congruence. subst NX'.
    assert (Hax : a <> randomUUID envX) by (rewrite HidX; unfold a; congruence).
    exists NX,
      (after_update (randomUUID envX) contentX
         (Note.mk (randomUUID envX) titleX contentX
            (toISOString envX 0) (toISOString envX 1) [] []) a A).
    split; [exact HcNX|]. split; [exact HgNX|]. split; [exact HbNX|].
    split.
    - unfold db2. rewrite created_get_other by exact Hax.
      rewrite HgA. reflexivity.
    - rewrite after_update_links.
      destruct (String.eqb_spec (randomUUID envX) a) as [E|_];
        [congruence | exact HXA]. }
  intros d env req resp d' NX' He Hid Hr Hg Hin.
  exact (route_backlinks_other env req d resp d' a He Hid Hr X NX' Hg Hin).
Qed.

Lemma dangling_then_resolved_witness :
  "A" <> ""
  /\ In Sample.idX (parseLinks ("to " ++ marker Sample.idX))
  /\ Obj.get Sample.idX (notes initialDb) = None
  /\ Sample.idX <> randomUUID (Sample.env Sample.idA)
  /\ exists NX A2,
       create_note (Sample.env Sample.idX)
         (mkBody (Some "X") (Some "late") None)
         (created (Sample.env Sample.idA) "A" ("to " ++ marker Sample.idX)
            initialDb)
       = Ok (mkResponse 201 (JNote NX),
             Some (created (Sample.env Sample.idX) "X" "late"
                     (created (Sample.env Sample.idA) "A"
                        ("to " ++ marker Sample.idX) initialDb)))
       /\ Note.backlinks NX = []
       /\ In Sample.idX (Note.links A2).
Proof.
  assert (H1 : "A" <> "") by discriminate.
  assert (H2 : In Sample.idX (parseLinks ("to " ++ marker Sample.idX)))
    by (left; reflexivity).
  assert (H4 : Sample.idX <> randomUUID (Sample.env Sample.idA))
    by discriminate.
  repeat (split; [assumption || reflexivity|]).
  destruct (dangling_then_resolved initialDb (Sample.env Sample.idA) "A"
              ("to " ++ marker Sample.idX) Sample.idX H1 H2 eq_refl H4)
    as [_ [_ [_ [H _]]]].
  destruct (H (Sample.env Sample.idX) "X" "late" eq_refl)
    as [NX [A2 [Hc [_ [Hb [_ Hl]]]]]]; try discriminate.
  exists NX, A2. split; [exact Hc|]. split; [exact Hb | exact Hl].
Defined.

(** An edit of A that keeps the marker of X leaves the edge as it was:
    X is in the old and in the new set, so the loop over [toAdd] does not
    visit it. *)
Example edit_keeping_marker_adds_no_backlink :
  let trace :=
    [(Sample.env Sample.idA,
      POST_notes (Sample.body "A" ("to " ++ marker Sample.idX)));
     (Sample.env Sample.idX, POST_notes (Sample.body "X" "late"));
     (Sample.env Sample.idB,
      PUT_note Sample.idA
        (Sample.content_only ("to " ++ marker Sample.idX ++ " again")))] in
  links_of (run trace None) Sample.idA = Some [Sample.idX]
  /\ backlinks_of (run trace None) Sample.idX = Some [].
Proof. split; reflexivity. Qed.

(** ** C6: the extractor returns a set *)

Lemma exec_here s g r : match_here s = Some (g, r) -> exec s = Some (g, r).
Proof. intros H. rewrite exec_unfold, H. reflexivity. Qed.

Lemma exec_skip c t : Ascii.eqb c "[" = false -> exec (String c t) = exec t.
Proof.
  intros H. rewrite exec_unfold.
  destruct c as [[] [] [] [] [] [] [] []]; try discriminate H; reflexivity.
Qed.

Lemma exec_marker_here id post :
  link_id id = true -> exec (marker id ++ post) = Some (id, post).
Proof. intros H. apply exec_here, match_here_marker, H. Qed.

(** C6: [parseLinks] never returns an identifier twice; in particular,
    for two different identifiers id1 and id2, the content
    [[[id1]] text [[id1]] [[id2]]] extracts to the two members id1, id2. *)
Theorem parseLinks_set_semantics :
  (forall content, NoDup (parseLinks content))
  /\ (forall id1 id2,
         link_id id1 = true -> link_id id2 = true -> id1 <> id2 ->
         parseLinks
           (marker id1 ++ " text " ++ marker id1 ++ " " ++ marker id2)
         = [id1; id2]).
Proof.
  split; [exact parseLinks_NoDup|].
  intros id1 id2 H1 H2 Hne. unfold parseLinks.
  rewrite parseLoop_step, (exec_marker_here id1 _ H1).
  rewrite parseLoop_step.
  change (" text " ++ marker id1 ++ " " ++ marker id2)%string
    with (String " " (String "t" (String "e" (String "x" (String "t"
           (String " " (marker id1 ++ " " ++ marker id2)))))))%string.
  rewrite !exec_skip by reflexivity.
  rewrite (exec_marker_here id1 _ H1).
  rewrite parseLoop_step.
  change (" " ++ marker id2)%string with (String " " (marker id2)).
  rewrite !exec_skip by reflexivity.
  replace (marker id2) with (marker id2 ++ "")%string
    by (unfold marker; rewrite !append_assoc; reflexivity).
  rewrite (exec_marker_here id2 _ H2).
  rewrite parseLoop_step. simpl.
  unfold JsSet.add. simpl. rewrite String.eqb_refl. simpl.
  apply String.eqb_neq in Hne. rewrite Hne. reflexivity.
Qed.

Lemma parseLinks_set_semantics_witness :
  link_id "a1" = true /\ link_id "b2" = true /\ "a1" <> "b2"
  /\ parseLinks "[[a1]] text [[a1]] [[b2]]" = ["a1"; "b2"].
Proof.
  split; [reflexivity|]. split; [reflexivity|].
  assert (H : "a1" <> "b2") by discriminate.
  split; [exact H|].
  exact (proj2 parseLinks_set_semantics "a1" "b2" eq_refl eq_refl H).
Defined.

(** ** C7: applying the same update twice *)

Lemma filter_self_empty l :
  filter (fun id => negb (JsSet.has id l)) l = [].
Proof.
  assert (H : forall m, incl m l ->
                        filter (fun id => negb (JsSet.has id l)) m = []).
  { induction m as [|x m IH]; intros Hm; simpl; [reflexivity|].
    assert (Hx : JsSet.has x l = true) by (apply has_In, Hm; now left).
    rewrite Hx. simpl. apply IH. intros y Hy. apply Hm. now right. }
  apply H, incl_refl.
Qed.

Lemma set_links_same x : Note.set_links (Note.links x) x = x.
Proof. destruct x; reflexivity. Qed.

Lemma updateLinks_notes_idempotent noteId newContent ns :
  updateLinks_notes noteId newContent (updateLinks_notes noteId newContent ns)
  = updateLinks_notes noteId newContent ns.
Proof.
  destruct (Obj.get noteId ns) as [note|] eqn:En.
  - set (ns' := updateLinks_notes noteId newContent ns).
    assert (Hn : Obj.get noteId ns'
                 = Some (after_update noteId newContent note noteId note)).
    { unfold ns'. rewrite (updateLinks_get noteId newContent ns note _ En), En.
      reflexivity. }
    assert (Hl : Note.links (after_update noteId newContent note noteId note)
                 = parseLinks newContent)
      by (rewrite after_update_links, String.eqb_refl; reflexivity).
    unfold updateLinks_notes at 1. rewrite Hn, Hl.
    rewrite filter_self_empty. simpl.
    apply modify_fixed. intros v Hv. rewrite Hn in Hv. inversion Hv; subst v.
    rewrite newLinks_parse, <- Hl. apply set_links_same.
  - rewrite !(updateLinks_absent noteId newContent ns En). reflexivity.
Qed.

(** C7: [updateLinks] applied a second time with the same note and the same
    content leaves the whole store, hence every note's [links] and
    [backlinks], as the first application left it. *)
Theorem updateLinks_idempotent :
  forall noteId newContent db,
    updateLinks noteId newContent (updateLinks noteId newContent db)
    = updateLinks noteId newContent db.
Proof.
  intros noteId newContent db. unfold updateLinks, set_notes. simpl.
  rewrite updateLinks_notes_idempotent. reflexivity.
Qed.

(** ** C8: the stored references are those of the latest content *)

(** C8: after [updateLinks] on a stored note, the note's [links] are
    exactly [parseLinks] of the new content. *)
Theorem links_mirror_content :
  forall db noteId note newContent,
    Obj.get noteId (notes db) = Some note ->
    exists note',
      Obj.get noteId (notes (updateLinks noteId newContent db)) = Some note'
      /\ Note.links note' = parseLinks newContent.
Proof.
  intros db noteId note newContent Hn.
  exists (after_update noteId newContent note noteId note). simpl.
  rewrite (updateLinks_get noteId newContent (notes db) note noteId Hn), Hn.
  split; [reflexivity|].
  rewrite after_update_links, String.eqb_refl. reflexivity.
Qed.

Lemma links_mirror_content_witness :
  exists note',
    Obj.get Sample.idB
      (notes (updateLinks Sample.idB ("now " ++ marker Sample.idX)
                Sample.linked)) = Some note'
    /\ Note.links note' = [Sample.idX].
Proof.
  exact (links_mirror_content Sample.linked Sample.idB Sample.noteB
           ("now " ++ marker Sample.idX) eq_refl).
Defined.

(** ** C9: the first load *)

(** C9 at its failing input: with no file, [readDB] writes and returns
    [{ notes: {} }], which has no [templates]; creating a template on it
    throws, the request answers 500 and no template is stored.  Listing the
    templates fails alike. *)
Theorem template_creation_fails_on_first_load :
  forall env b,
    truthy (b_title b) = true -> truthy (b_content b) = true ->
    readDB None = (initialDb, Some initialDb)
    /\ templates initialDb = None
    /\ server env (POST_templates b) None
       = (mkResponse 500 (JMessage "Internal Server Error"), Some initialDb)
    /\ server env GET_templates None
       = (mkResponse 500 (JMessage "Internal Server Error"), Some initialDb).
Proof.
  intros env b Ht Hc. repeat split.
  unfold server, readDB, route, create_template. rewrite Ht, Hc. reflexivity.
Qed.

Lemma template_creation_fails_on_first_load_witness :
  server (Sample.env Sample.idX) (POST_templates (Sample.body "t" "c")) None
  = (mkResponse 500 (JMessage "Internal Server Error"), Some initialDb).
Proof.
  exact (proj1 (proj2 (proj2
           (template_creation_fails_on_first_load (Sample.env Sample.idX)
              (Sample.body "t" "c") eq_refl eq_refl)))).
Defined.

(** ** C10: the daily note *)

Lemma find_none_title (t : string) (l : list Note.t) :
  (forall n, In n l -> Note.title n <> t) ->
  find (fun note => String.eqb (Note.title note) t) l = None.
Proof.
  induction l as [|x l IH]; simpl; intros H; [reflexivity|].
  destruct (String.eqb_spec (Note.title x) t) as [E|_].
  - exfalso. apply (H x); [now left | exact E].
  - apply IH. intros n Hn. apply H. now right.
Qed.

Lemma find_some_title (t : string) (l : list Note.t) :
  (exists n, In n l /\ Note.title n = t) ->
  exists n, find (fun note => String.eqb (Note.title note) t) l = Some n
            /\ In n l /\ Note.title n = t.
Proof.
  intros [n [Hn Ht]].
  destruct (find (fun note => String.eqb (Note.title note) t) l) as [m|] eqn:E.
  - exists m. split; [reflexivity|]. apply find_some in E.
    destruct E as [Hm Hmt]. apply String.eqb_eq in Hmt. auto.
  - exfalso. apply (find_none _ _ E) in Hn. apply String.eqb_neq in Hn.
    contradiction.
Qed.

(** C10: [GET /api/notes/daily].  When no stored note has the title
    [Daily Note: <today>], the request adds a note with that title and empty
    [links] and [backlinks] under the drawn identifier, writes the
    document and answers 201 with the note (also when there is no file
    yet); when a stored note has the title, the request answers 200 with
    such a note and the file is as it was. *)
Theorem daily_note_creates_or_returns :
  forall env db,
    let today := before_T (toISOString env 0) in
    let id := randomUUID env in
    let dailyNote :=
      Note.mk id (dailyNoteTitle today) ("# " ++ today ++ newline ++ newline)
        (toISOString env 1) (toISOString env 2) [] [] in
    ((forall n, In n (Obj.values (notes db)) ->
                Note.title n <> dailyNoteTitle today) ->
     Obj.get id (notes db) = None ->
     server env GET_notes_daily (Some db)
     = (mkResponse 201 (JNote dailyNote),
        Some (mkDb (notes db ++ [(id, dailyNote)]) (templates db))))
    /\ ((exists n, In n (Obj.values (notes db))
                   /\ Note.title n = dailyNoteTitle today) ->
        exists n,
          In n (Obj.values (notes db))
          /\ Note.title n = dailyNoteTitle today
          /\ server env GET_notes_daily (Some db)
             = (mkResponse 200 (JNote n), Some db))
    /\ server env GET_notes_daily None
       = (mkResponse 201 (JNote dailyNote), Some (mkDb [(id, dailyNote)] None)).
Proof.
  intros env db today id dailyNote. split; [|split; [|reflexivity]].
  - intros Hnone Hfresh. unfold server, readDB, route, daily_note.
    fold today. rewrite (find_none_title _ _ Hnone). fold id. fold dailyNote.
    unfold write_respond, set_notes.
    rewrite (set_absent id dailyNote (notes db) Hfresh). reflexivity.
  - intros Hex. apply find_some_title in Hex.
    destruct Hex as [n [Hf [Hin Ht]]]. exists n.
    split; [exact Hin|]. split; [exact Ht|].
    unfold server, readDB, route, daily_note.
    fold today. rewrite Hf. reflexivity.
Qed.

Lemma daily_note_creates_or_returns_witness :
  server (Sample.env Sample.idX) GET_notes_daily (Some Sample.linked)
  = (mkResponse 201
       (JNote (Note.mk Sample.idX "Daily Note: 2024-05-17"
                 ("# 2024-05-17" ++ newline ++ newline)
                 Sample.stamp Sample.stamp [] [])),
     Some (mkDb
             (notes Sample.linked
              ++ [(Sample.idX,
                   Note.mk Sample.idX "Daily Note: 2024-05-17"
                     ("# 2024-05-17" ++ newline ++ newline)
                     Sample.stamp Sample.stamp [] [])])
             None)).
Proof.
  apply (proj1 (daily_note_creates_or_returns (Sample.env Sample.idX)
                  Sample.linked)).
  - intros n [<-|[<-|[]]]; discriminate.
  - reflexivity.
Defined.

(** * Further properties of the code *)

(** ** Routing *)

Lemma split_slash_segment s :
  segment s = true -> split_slash s = [s].
Proof.
  induction s as [|c t IH]; simpl; [reflexivity|].
  destruct (Ascii.eqb c "/"); simpl; [discriminate|].
  intros H. rewrite (IH H). reflexivity.
Qed.

Lemma split_slash_segment_slash s rest :
  segment s = true ->
  split_slash (s ++ String "/" rest) = s :: split_slash rest.
Proof.
  induction s as [|c t IH]; simpl; [reflexivity|].
  destruct (Ascii.eqb c "/"); simpl; [discriminate|].
  intros H. rewrite (IH H). reflexivity.
Qed.

Lemma urlPart3_notes id :
  segment id = true -> urlPart3 ("/api/notes/" ++ id) = id.
Proof.
  intros H. unfold urlPart3. simpl. rewrite (split_slash_segment id H).
  reflexivity.
Qed.

Lemma urlPart3_templates id :
  segment id = true -> urlPart3 ("/api/templates/" ++ id) = id.
Proof.
  intros H. unfold urlPart3. simpl. rewrite (split_slash_segment id H).
  reflexivity.
Qed.

Lemma startsWith_append p s : startsWith p (p ++ s) = true.
Proof.
  unfold startsWith. induction p as [|c p IH]; simpl.
  - destruct s; reflexivity.
  - destruct (ascii_dec c c) as [_|E]; [exact IH | contradiction].
Qed.

Lemma urlPart3_notes_tail id rest :
  segment id = true ->
  urlPart3 ("/api/notes/" ++ id ++ String "/" rest) = id.
Proof.
  intros H. unfold urlPart3. simpl.
  rewrite (split_slash_segment_slash id rest H). reflexivity.
Qed.

Lemma urlPart3_templates_tail id rest :
  segment id = true ->
  urlPart3 ("/api/templates/" ++ id ++ String "/" rest) = id.
Proof.
  intros H. unfold urlPart3. simpl.
  rewrite (split_slash_segment_slash id rest H). reflexivity.
Qed.

(** X1: the path [/api/notes/<id>] or [/api/templates/<id>], for an [id]
    without slash, reaches the handler of its method with exactly that
    [id]; the one exception is [GET /api/notes/daily], which is the daily
    note and never a lookup of the identifier ["daily"]. *)
Theorem dispatch_item_paths :
  forall id b,
    segment id = true ->
    dispatch "GET" ("/api/notes/" ++ id) b
    = (if String.eqb id "daily" then GET_notes_daily else GET_note id)
    /\ dispatch "PUT" ("/api/notes/" ++ id) b = PUT_note id b
    /\ dispatch "DELETE" ("/api/notes/" ++ id) b = DELETE_note id
    /\ dispatch "GET" ("/api/templates/" ++ id) b = GET_template id
    /\ dispatch "PUT" ("/api/templates/" ++ id) b = PUT_template id b
    /\ dispatch "DELETE" ("/api/templates/" ++ id) b = DELETE_template id.
Proof.
  intros id b H. unfold dispatch.
  rewrite (urlPart3_notes id H), (urlPart3_templates id H).
  rewrite !startsWith_append.
  repeat split; reflexivity.
Qed.

Lemma dispatch_item_paths_witness :
  dispatch "PUT" ("/api/notes/" ++ Sample.idA) (Sample.body "t" "c")
  = PUT_note Sample.idA (Sample.body "t" "c").
Proof.
  exact (proj1 (proj2 (dispatch_item_paths Sample.idA (Sample.body "t" "c")
                         eq_refl))).
Defined.

(** X2: only the path segment after [/api/notes/] or [/api/templates/]
    counts: whatever follows a further slash is ignored, and
    [GET /api/notes/daily/...] is a lookup of the identifier ["daily"]. *)
Theorem dispatch_ignores_path_tail :
  forall id rest b,
    segment id = true ->
    dispatch "GET" ("/api/notes/" ++ id ++ String "/" rest) b = GET_note id
    /\ dispatch "PUT" ("/api/notes/" ++ id ++ String "/" rest) b
       = PUT_note id b
    /\ dispatch "DELETE" ("/api/notes/" ++ id ++ String "/" rest) b
       = DELETE_note id
    /\ dispatch "GET" ("/api/templates/" ++ id ++ String "/" rest) b
       = GET_template id
    /\ dispatch "PUT" ("/api/templates/" ++ id ++ String "/" rest) b
       = PUT_template id b
    /\ dispatch "DELETE" ("/api/templates/" ++ id ++ String "/" rest) b
       = DELETE_template id.
Proof.
  intros id rest b H. unfold dispatch.
  rewrite (urlPart3_notes_tail id rest H), (urlPart3_templates_tail id rest H).
  rewrite !startsWith_append.
  repeat split; try reflexivity.
  simpl.
  assert (E : String.eqb (id ++ String "/" rest) "daily" = false).
  { apply String.eqb_neq. intros E.
    assert (Hs : segment (id ++ String "/" rest) = true)
      by (rewrite E; reflexivity).
    clear E. induction id as [|c t IH]; simpl in *; [discriminate|].
    apply andb_prop in H. destruct H as [Hc Ht].
    rewrite Hc in Hs. simpl in Hs. exact (IH Ht Hs). }
  rewrite E. reflexivity.
Qed.

Lemma dispatch_ignores_path_tail_witness :
  dispatch "GET" "/api/notes/daily/" (Sample.body "t" "c") = GET_note "daily".
Proof.
  exact (proj1 (dispatch_ignores_path_tail "daily" "" (Sample.body "t" "c")
                  eq_refl)).
Defined.

(** ** Responses and writes *)

Ltac split_handler :=
  repeat (simpl;
          match goal with
          | |- context [if ?c then _ else _] => destruct c
          | |- context [match Obj.get ?k ?o with _ => _ end] =>
              destruct (Obj.get k o)
          | |- context [match templates ?d with _ => _ end] =>
              destruct (templates d) eqn:?
          | |- context [match find ?f ?l with _ => _ end] =>
              destruct (find f l)
          end).




Lemma reads_only_no_write env req db :
  reads_only req = true ->
  match route env req db with
  | Ok (_, Some _) => False
  | _ => True
  end.
Proof.
  destruct req; try discriminate; intros _;
    unfold route, list_templates, read_template, list_notes, read_note,
      templates_of, respond;
    split_handler; simpl; auto.
Qed.

Lemma server_reads_only env req disk :
  reads_only req = true -> snd (server env req disk) = snd (readDB disk).
Proof.
  intros H. unfold server. destruct (readDB disk) as [db disk1]. simpl.
  pose proof (reads_only_no_write env req db H) as Hr.
  destruct (route env req db) as [[resp [db'|]]|e]; simpl;
    [contradiction | reflexivity | reflexivity].
Qed.

Lemma dispatch_GET_reads url b :
  url <> "/api/notes/daily" -> reads_only (dispatch "GET" url b) = true.
Proof.
  intros H. unfold dispatch. apply String.eqb_neq in H.
  simpl. rewrite H.
  repeat match goal with
         | |- context [if ?c then _ else _] => destruct c
         end; reflexivity.
Qed.

Lemma dispatch_other_method method url b :
  method <> "GET" -> method <> "POST" -> method <> "PUT" ->
  method <> "DELETE" ->
  dispatch method url b = Unrouted.
Proof.
  intros H1 H2 H3 H4. apply String.eqb_neq in H1, H2, H3, H4.
  unfold dispatch. rewrite H1, H2, H3, H4. reflexivity.
Qed.

(** X4: a [GET] of any URL other than [/api/notes/daily] leaves the file
    as it is, and a request whose method is none of GET, POST, PUT, DELETE
    is answered 404 and leaves the file as it is. *)
Theorem reads_leave_file :
  forall env method url b db,
    (method = "GET" -> url <> "/api/notes/daily" ->
     snd (http env method url b (Some db)) = Some db)
    /\ (method <> "GET" -> method <> "POST" -> method <> "PUT" ->
        method <> "DELETE" ->
        http env method url b (Some db)
        = (mkResponse 404 (JMessage "Endpoint not found."), Some db)).
Proof.
  intros env method url b db. split.
  - intros -> Hu. unfold http.
    rewrite (server_reads_only env _ (Some db) (dispatch_GET_reads url b Hu)).
    reflexivity.
  - intros H1 H2 H3 H4. unfold http.
    rewrite (dispatch_other_method method url b H1 H2 H3 H4). reflexivity.
Qed.

Lemma reads_leave_file_witness :
  snd (http (Sample.env Sample.idX) "GET" ("/api/notes/" ++ Sample.idA)
         (Sample.body "" "") (Some Sample.linked))
  = Some Sample.linked.
Proof.
  apply (proj1 (reads_leave_file (Sample.env Sample.idX) "GET"
                  ("/api/notes/" ++ Sample.idA) (Sample.body "" "")
                  Sample.linked)); [reflexivity | discriminate].
Defined.

(** ** Templates *)

Lemma truthy_true v s : v = Some s -> s <> "" -> truthy v = true.
Proof.
  intros -> H. simpl. apply String.eqb_neq in H. rewrite H. reflexivity.
Qed.

Lemma or_else_some s d : s <> "" -> or_else (Some s) d = s.
Proof.
  intros H. simpl. apply String.eqb_neq in H. rewrite H. reflexivity.
Qed.

Lemma or_else_falsy v d : truthy v = false -> or_else v d = d.
Proof.
  destruct v as [s|]; simpl; [|reflexivity].
  destruct (String.eqb s ""); [reflexivity | discriminate].
Qed.

(** X5: on a document that has [templates], [POST /api/templates] with a
    title and a content that are not empty answers 201 with the template
    [{id, title, content}] under the drawn identifier, and a following
    [GET /api/templates/:id] answers 200 with the same template; the notes
    are not touched. *)
Theorem template_create_then_read :
  forall env env' db ts title content templateId,
    templates db = Some ts ->
    title <> "" -> content <> "" ->
    let id := randomUUID env in
    let x := Template.mk id title content in
    let db' := set_templates (Obj.set id x ts) db in
    server env (POST_templates (mkBody (Some title) (Some content) templateId))
      (Some db)
    = (mkResponse 201 (JTemplate x), Some db')
    /\ server env' (GET_template id) (Some db')
       = (mkResponse 200 (JTemplate x), Some db')
    /\ notes db' = notes db.
Proof.
  intros env env' db ts title content templateId Hts Ht Hc id x db'.
  apply String.eqb_neq in Ht, Hc.
  split; [|split; [|reflexivity]].
  - unfold server, readDB, route, create_template, templates_of. simpl.
    rewrite Ht, Hc, Hts. reflexivity.
  - unfold server, readDB, route, read_template, templates_of, db'. simpl.
    rewrite get_set_eq. reflexivity.
Qed.

Lemma template_create_then_read_witness :
  server (Sample.env Sample.idA) (GET_template Sample.idX)
    (Some (set_templates
             (Obj.set Sample.idX (Template.mk Sample.idX "t" "c") [])
             (mkDb [] (Some []))))
  = (mkResponse 200 (JTemplate (Template.mk Sample.idX "t" "c")),
     Some (set_templates
             (Obj.set Sample.idX (Template.mk Sample.idX "t" "c") [])
             (mkDb [] (Some [])))).
Proof.
  refine (proj1 (proj2 (template_create_then_read (Sample.env Sample.idX)
                          (Sample.env Sample.idA) (mkDb [] (Some [])) []
                          "t" "c" None eq_refl _ _))); discriminate.
Defined.





(** What a handler writes: a template handler keeps the notes, any other
    handler keeps the templates. *)
Lemma route_frame env req db resp db' :
  route env req db = Ok (resp, Some db') ->
  (template_request req = true -> notes db' = notes db)
  /\ (template_request req = false -> templates db' = templates db).
Proof.
  destruct req; unfold route, create_template, list_templates, read_template,
    update_template, delete_template, list_notes, daily_note, read_note,
    create_note, insert_note, update_note, delete_note, templates_of,
    respond, write_respond;
    split_handler; intros H; try discriminate H;
    inversion H; subst; simpl;
    split; intros; first [reflexivity | discriminate | congruence].
Qed.

Lemma server_templates_missing env req disk :
  templates_missing disk = true ->
  templates_missing (snd (server env req disk)) = true.
Proof.
  intros H. unfold server.
  assert (Hdb : templates (fst (readDB disk)) = None
                /\ templates_missing (snd (readDB disk)) = true).
  { destruct disk as [db|]; simpl in *; [|split; reflexivity].
    destruct (templates db); [discriminate | split; reflexivity]. }
  destruct (readDB disk) as [db disk1]. simpl in Hdb. destruct Hdb as [Hn Hd].
  destruct (route env req db) as [[resp [db'|]]|e] eqn:E; simpl;
    [|exact Hd|exact Hd].
  destruct (template_request req) eqn:Et.
  - exfalso. revert E.
    destruct req; try discriminate;
      unfold route, create_template, list_templates, read_template,
        update_template, delete_template, templates_of, respond;
      rewrite Hn; split_handler; discriminate.
  - destruct (route_frame env req db resp db' E) as [_ Hk].
    rewrite (Hk Et), Hn. reflexivity.
Qed.

Lemma run_templates_missing trace disk :
  templates_missing disk = true -> templates_missing (run trace disk) = true.
Proof.
  revert disk. induction trace as [|[env req] rest IH]; simpl; intros disk H.
  - exact H.
  - apply IH, server_templates_missing, H.
Qed.

Lemma server_500_without_templates env req disk :
  templates_missing disk = true ->
  (forall db, templates db = None -> route env req db = Throw type_error) ->
  status (fst (server env req disk)) = 500.
Proof.
  intros H Hr. unfold server.
  destruct disk as [db|]; simpl in *.
  - destruct (templates db) eqn:E; [discriminate|].
    rewrite (Hr db E). reflexivity.
  - rewrite (Hr initialDb eq_refl). reflexivity.
Qed.

(** X8: no request ever adds [templates] to a document that lacks them:
    from a missing file, or from a document without [templates], the
    document lacks them after every sequence of requests, and every request
    that reaches [db.templates] is answered 500. *)
Theorem templates_never_appear :
  forall start trace,
    templates_missing start = true ->
    let disk := run trace start in
    templates_missing disk = true
    /\ (forall env id b,
           status (fst (server env GET_templates disk)) = 500
           /\ status (fst (server env (GET_template id) disk)) = 500
           /\ status (fst (server env (PUT_template id b) disk)) = 500
           /\ status (fst (server env (DELETE_template id) disk)) = 500
           /\ (truthy (b_title b) = true -> truthy (b_content b) = true ->
               status (fst (server env (POST_templates b) disk)) = 500)
           /\ (truthy (b_title b) = true -> truthy (b_templateId b) = true ->
               status (fst (server env (POST_notes b) disk)) = 500)).
Proof.
  intros start trace Hs disk.
  assert (Hd : templates_missing disk = true)
    by (apply run_templates_missing, Hs).
  split; [exact Hd|].
  intros env id b.
  repeat split; intros;
    apply (server_500_without_templates _ _ _ Hd);
    intros db Hn;
    unfold route, list_templates, read_template, update_template,
      delete_template, create_template, create_note, templates_of;
    rewrite ?Hn;
    repeat match goal with H : truthy _ = true |- _ => rewrite H end;
    simpl; rewrite ?Hn; reflexivity.
Qed.

Lemma templates_never_appear_witness :
  templates_missing None = true
  /\ templates_missing (run Sample.trace_linked None) = true.
Proof.
  split; [reflexivity|].
  exact (proj1 (templates_never_appear None Sample.trace_linked eq_refl)).
Defined.

(** X9: the template endpoints never change the notes, and no other
    endpoint changes the templates. *)
Theorem notes_and_templates_are_separate :
  forall env req db db',
    snd (server env req (Some db)) = Some db' ->
    (template_request req = true -> notes db' = notes db)
    /\ (template_request req = false -> templates db' = templates db).
Proof.
  intros env req db db'. unfold server, readDB.
  destruct (route env req db) as [[resp [d|]]|e] eqn:E; simpl;
    intros H; inversion H; subst.
  - exact (route_frame env req db resp db' E).
  - split; reflexivity.
  - split; reflexivity.
Qed.

Lemma notes_and_templates_are_separate_witness :
  snd (server (Sample.env Sample.idX) (DELETE_note Sample.idB)
         (Some Sample.linked))
  = Some (mkDb [(Sample.idA, Sample.noteA)] None)
  /\ templates (mkDb [(Sample.idA, Sample.noteA)] None)
     = templates Sample.linked.
Proof.
  split; [reflexivity|].
  exact (proj2 (notes_and_templates_are_separate (Sample.env Sample.idX)
                  (DELETE_note Sample.idB) Sample.linked
                  (mkDb [(Sample.idA, Sample.noteA)] None) eq_refl) eq_refl).
Defined.

(** ** Notes: creation *)



(** X11: [POST /api/notes] with the identifier of a stored template whose
    content is not empty creates the note with the template's content,
    whatever content the body carries, and with the [links] that content
    extracts to. *)
Theorem create_note_from_template :
  forall env db ts title content templateId template,
    title <> "" -> templateId <> "" ->
    templates db = Some ts ->
    Obj.get templateId ts = Some template ->
    Template.content template <> "" ->
    exists n,
      server env (POST_notes (mkBody (Some title) content (Some templateId)))
        (Some db)
      = (mkResponse 201 (JNote n),
         Some (created env title (Template.content template) db))
      /\ Obj.get (randomUUID env)
           (notes (created env title (Template.content template) db))
         = Some n
      /\ Note.content n = Template.content template
      /\ Note.links n = parseLinks (Template.content template)
      /\ Note.backlinks n = [].
Proof.
  intros env db ts title content templateId template Ht Hi Hts Hg Hc.
  destruct (created_get_own env title (Template.content template) db)
    as [n [Hn [Hl Hb]]].
  exists n.
  assert (Hcontent : Note.content n = Template.content template).
  { unfold created in Hn. simpl in Hn.
    rewrite (updateLinks_get (randomUUID env) _ _ _ _ (get_set_eq _ _ _)) in Hn.
    rewrite get_set_eq in Hn. simpl in Hn. inversion Hn.
    unfold after_update. rewrite String.eqb_refl.
    repeat match goal with |- context [if ?c then _ else _] =>
      destruct c; simpl end; reflexivity. }
  split; [|auto].
  apply String.eqb_neq in Ht, Hi, Hc.
  unfold server, readDB, route, create_note, templates_of, insert_note. simpl.
  rewrite Ht, Hi. simpl. rewrite Hts, Hg, Hc. simpl.
  unfold created in Hn. simpl in Hn. rewrite Hn. reflexivity.
Qed.

Lemma create_note_from_template_witness :
  exists n,
    server (Sample.env Sample.idB)
      (POST_notes (mkBody (Some "B") (Some "ignored") (Some Sample.idX)))
      (Some (mkDb [(Sample.idA, Note.mk Sample.idA "A" "first" Sample.stamp
                                  Sample.stamp [] [])]
               (Some [(Sample.idX,
                       Template.mk Sample.idX "t" (marker Sample.idA))])))
    = (mkResponse 201 (JNote n),
       Some (created (Sample.env Sample.idB) "B" (marker Sample.idA)
               (mkDb [(Sample.idA, Note.mk Sample.idA "A" "first" Sample.stamp
                                     Sample.stamp [] [])]
                  (Some [(Sample.idX,
                          Template.mk Sample.idX "t" (marker Sample.idA))]))))
    /\ Note.links n = [Sample.idA].
Proof.
  destruct (create_note_from_template (Sample.env Sample.idB)
              (mkDb [(Sample.idA, Note.mk Sample.idA "A" "first" Sample.stamp
                                    Sample.stamp [] [])]
                 (Some [(Sample.idX,
                         Template.mk Sample.idX "t" (marker Sample.idA))]))
              [(Sample.idX, Template.mk Sample.idX "t" (marker Sample.idA))]
              "B" (Some "ignored") Sample.idX
              (Template.mk Sample.idX "t" (marker Sample.idA)))
    as [n [H [_ [_ [Hl _]]]]]; try discriminate; try reflexivity.
  exists n. split; [exact H | exact Hl].
Defined.

(** X12: a note created by [POST /api/notes] can be read back: a following
    [GET /api/notes/:id] with the drawn identifier answers 200 with the note
    of the 201 response, and writes nothing. *)
Theorem create_note_then_read :
  forall env env' db title content,
    title <> "" -> content <> "" ->
    exists n,
      server env (POST_notes (mkBody (Some title) (Some content) None))
        (Some db)
      = (mkResponse 201 (JNote n), Some (created env title content db))
      /\ server env' (GET_note (randomUUID env))
           (Some (created env title content db))
         = (mkResponse 200 (JNote n), Some (created env title content db))
      /\ Note.id n = randomUUID env
      /\ Note.title n = title
      /\ Note.content n = content
      /\ Note.createdAt n = toISOString env 0
      /\ Note.updatedAt n = toISOString env 1.
Proof.
  intros env env' db title content Ht Hc.
  destruct (create_note_plain env title content db Ht Hc) as [n [Hp Hg]].
  exists n. split; [|split].
  - unfold server, readDB, route. rewrite Hp. reflexivity.
  - unfold server, readDB, route, read_note. rewrite Hg. reflexivity.
  - unfold created in Hg. simpl in Hg.
    rewrite (updateLinks_get (randomUUID env) _ _ _ _ (get_set_eq _ _ _)) in Hg.
    rewrite get_set_eq in Hg. simpl in Hg. inversion Hg.
    unfold after_update. rewrite String.eqb_refl.
    repeat match goal with |- context [if ?c then _ else _] =>
      destruct c; simpl end; repeat split; reflexivity.
Qed.

Lemma create_note_then_read_witness :
  exists n,
    server (Sample.env Sample.idB) (GET_note Sample.idA)
      (Some (created (Sample.env Sample.idA) "A" "first" initialDb))
    = (mkResponse 200 (JNote n),
       Some (created (Sample.env Sample.idA) "A" "first" initialDb))
    /\ Note.title n = "A".
Proof.
  destruct (create_note_then_read (Sample.env Sample.idA)
              (Sample.env Sample.idB) initialDb "A" "first")
    as [n [_ [H [_ [Ht _]]]]]; try discriminate.
  exists n. split; [exact H | exact Ht].
Defined.

(** ** Notes: update *)

Lemma after_update_fields noteId newContent note k x :
  Note.id (after_update noteId newContent note k x) = Note.id x
  /\ Note.title (after_update noteId newContent note k x) = Note.title x
  /\ Note.content (after_update noteId newContent note k x) = Note.content x
  /\ Note.createdAt (after_update noteId newContent note k x)
     = Note.createdAt x
  /\ Note.updatedAt (after_update noteId newContent note k x)
     = Note.updatedAt x.
Proof.
  unfold after_update.
  repeat match goal with |- context [if ?c then _ else _] =>
    destruct c; simpl end; repeat split; reflexivity.
Qed.

(** The record of [id] after [PUT /api/notes/:id], in the two cases of the
    test [if (content)]. *)
Lemma update_note_get env id b db note :
  Obj.get id (notes db) = Some note ->
  exists db' note',
    update_note env id b db = Ok (mkResponse 200 (JNote note'), Some db')
    /\ Obj.get id (notes db') = Some note'
    /\ templates db' = templates db
    /\ note' =
       Note.set_updatedAt (toISOString env 0)
         (Note.set_content (or_else (b_content b) (Note.content note))
            (let y := Note.set_title (or_else (b_title b) (Note.title note))
                        note in
             if truthy (b_content b)
             then after_update id (or_else (b_content b) (Note.content note))
                    y id y
             else y))
    /\ (truthy (b_content b) = false ->
        forall k, k <> id -> Obj.get k (notes db') = Obj.get k (notes db)).
Proof.
  intros Hn. unfold update_note. rewrite Hn.
  set (f1 := Note.set_title (or_else (b_title b) (Note.title note))).
  set (c := or_else (b_content b) (Note.content note)).
  destruct (truthy (b_content b)) eqn:Et.
  - eexists _, _. split.
    { unfold updateLinks, set_notes. cbn [notes templates].
      rewrite !get_modify_eq.
      rewrite !(updateLinks_get id c _ (f1 note) id)
        by (rewrite get_modify_eq, Hn; reflexivity).
      rewrite !get_modify_eq, Hn. simpl. reflexivity. }
    split.
    { unfold updateLinks, set_notes. cbn [notes templates].
      rewrite !get_modify_eq.
      rewrite !(updateLinks_get id c _ (f1 note) id)
        by (rewrite get_modify_eq, Hn; reflexivity).
      rewrite !get_modify_eq, Hn. simpl. reflexivity. }
    split; [reflexivity|]. split; [reflexivity | discriminate].
  - eexists _, _. split.
    { unfold set_notes. cbn [notes templates].
      rewrite !get_modify_eq, Hn. simpl. reflexivity. }
    split.
    { unfold set_notes. cbn [notes templates].
      rewrite !get_modify_eq, Hn. simpl. reflexivity. }
    split; [reflexivity|]. split; [reflexivity|].
    intros _ k Hk. unfold set_notes. cbn [notes].
    rewrite !get_modify_ne by exact Hk. reflexivity.
Qed.

(** X13: [PUT /api/notes/:id] on a stored note answers 200 with the stored
    record, in which the identifier and [createdAt] are as before,
    [updatedAt] is the time of the request, and the title and the content
    are those of the body, or the old ones where the body's are missing or
    empty.  With a missing or empty content the [links] and [backlinks] of
    the note and every other note are untouched; with a content the [links]
    are those the new content extracts to.  The templates are never
    touched. *)
Theorem update_note_fields :
  forall env id b db note,
    Obj.get id (notes db) = Some note ->
    exists db' note',
      server env (PUT_note id b) (Some db)
      = (mkResponse 200 (JNote note'), Some db')
      /\ Obj.get id (notes db') = Some note'
      /\ templates db' = templates db
      /\ Note.id note' = Note.id note
      /\ Note.createdAt note' = Note.createdAt note
      /\ Note.updatedAt note' = toISOString env 0
      /\ Note.title note' = or_else (b_title b) (Note.title note)
      /\ Note.content note' = or_else (b_content b) (Note.content note)
      /\ (truthy (b_content b) = false ->
          Note.links note' = Note.links note
          /\ Note.backlinks note' = Note.backlinks note
          /\ forall k, k <> id -> Obj.get k (notes db') = Obj.get k (notes db))
      /\ (truthy (b_content b) = true ->
          Note.links note' = parseLinks (Note.content note')).
Proof.
  intros env id b db note Hn.
  destruct (update_note_get env id b db note Hn)
    as [db' [note' [Hu [Hg [Ht [He Hk]]]]]].
  exists db', note'.
  split; [unfold server, readDB, route; rewrite Hu; reflexivity|].
  split; [exact Hg|]. split; [exact Ht|].
  rewrite He. simpl.
  destruct (truthy (b_content b)) eqn:Et; simpl.
  - destruct (after_update_fields id
                (or_else (b_content b) (Note.content note))
                (Note.set_title (or_else (b_title b) (Note.title note)) note)
                id
                (Note.set_title (or_else (b_title b) (Note.title note)) note))
      as [H1 [H2 [_ [H4 _]]]].
    rewrite H1, H2, H4. simpl.
    repeat split; try discriminate.
    intros _. rewrite after_update_links, String.eqb_refl. reflexivity.
  - repeat split; try discriminate. exact (Hk eq_refl).
Qed.

Lemma update_note_fields_witness :
  exists db' note',
    server (Sample.env Sample.idX)
      (PUT_note Sample.idB (mkBody (Some "B2") None None))
      (Some Sample.linked)
    = (mkResponse 200 (JNote note'), Some db')
    /\ Note.title note' = "B2"
    /\ Note.content note' = Note.content Sample.noteB.
Proof.
  destruct (update_note_fields (Sample.env Sample.idX) Sample.idB
              (mkBody (Some "B2") None None) Sample.linked Sample.noteB
              eq_refl)
    as [db' [note' [H [_ [_ [_ [_ [_ [Ht [Hc _]]]]]]]]]].
  exists db', note'. split; [exact H|]. split; [exact Ht | exact Hc].
Defined.

(** ** Notes: deletion *)

Lemma after_delete_fields id noteToDelete k x :
  Note.id (after_delete id noteToDelete k x) = Note.id x
  /\ Note.title (after_delete id noteToDelete k x) = Note.title x
  /\ Note.content (after_delete id noteToDelete k x) = Note.content x
  /\ Note.createdAt (after_delete id noteToDelete k x) = Note.createdAt x
  /\ Note.updatedAt (after_delete id noteToDelete k x) = Note.updatedAt x.
Proof.
  unfold after_delete.
  destruct (JsSet.has k (Note.backlinks noteToDelete)); repeat split.
Qed.

(** X14: [DELETE /api/notes/:id] on a stored note answers 204; after it
    the note is gone ([GET] and a second [DELETE] answer 404), while every
    other note is still stored with its identifier, title, content
    (markers of the deleted note included) and timestamps. *)
Theorem delete_note_then_read :
  forall env id db noteToDelete,
    Obj.get id (notes db) = Some noteToDelete ->
    exists db',
      server env (DELETE_note id) (Some db)
      = (mkResponse 204 JNothing, Some db')
      /\ server env (GET_note id) (Some db')
         = (mkResponse 404 (JMessage "Note not found."), Some db')
      /\ server env (DELETE_note id) (Some db')
         = (mkResponse 404 (JMessage "Note not found."), Some db')
      /\ templates db' = templates db
      /\ forall k x,
           k <> id -> Obj.get k (notes db) = Some x ->
           exists x',
             server env (GET_note k) (Some db')
             = (mkResponse 200 (JNote x'), Some db')
             /\ Note.id x' = Note.id x /\ Note.title x' = Note.title x
             /\ Note.content x' = Note.content x
             /\ Note.createdAt x' = Note.createdAt x
             /\ Note.updatedAt x' = Note.updatedAt x.
Proof.
  intros env id db d Hd.
  exists (set_notes (deleteNote_notes id d (notes db)) db).
  unfold server, readDB, route, delete_note, read_note. rewrite Hd. simpl.
  rewrite deleteNote_get_eq.
  repeat (split; [reflexivity|]).
  intros k x Hk Hx. exists (after_delete id d k x).
  rewrite (deleteNote_get_ne id d (notes db) k Hk), Hx. simpl.
  split; [reflexivity | apply after_delete_fields].
Qed.

Lemma delete_note_then_read_witness :
  exists db',
    server (Sample.env Sample.idX) (DELETE_note Sample.idA)
      (Some Sample.linked)
    = (mkResponse 204 JNothing, Some db')
    /\ server (Sample.env Sample.idX) (GET_note Sample.idA) (Some db')
       = (mkResponse 404 (JMessage "Note not found."), Some db').
Proof.
  destruct (delete_note_then_read (Sample.env Sample.idX) Sample.idA
              Sample.linked Sample.noteA eq_refl) as [db' [H1 [H2 _]]].
  exists db'. split; [exact H1 | exact H2].
Defined.

(** X15: in every document reached from an empty collection with fresh
    identifiers, deleting a note removes its identifier from the [links] of
    every note that remains: no forward link to the deleted note
    survives. *)
Theorem delete_leaves_no_forward_link :
  forall start trace db env id noteToDelete,
    empty_start start = true ->
    fresh_trace trace start = true ->
    run trace start = Some db ->
    Obj.get id (notes db) = Some noteToDelete ->
    exists db',
      snd (server env (DELETE_note id) (Some db)) = Some db'
      /\ forall k x', Obj.get k (notes db') = Some x' ->
                      ~ In id (Note.links x').
Proof.
  intros start trace db env id d Hstart Hfresh Hrun Hd.
  pose proof (run_symmetry_distinct trace start Hfresh
                (empty_start_symmetry_distinct start Hstart)) as Hs.
  rewrite Hrun in Hs. simpl in Hs.
  exists (set_notes (deleteNote_notes id d (notes db)) db).
  unfold server, readDB, route, delete_note. rewrite Hd. simpl.
  split; [reflexivity|].
  intros k x' Hk Hin.
  destruct (string_dec k id) as [->|Hne];
    [rewrite deleteNote_get_eq in Hk; discriminate|].
  rewrite (deleteNote_get_ne id d (notes db) k Hne) in Hk.
  destruct (Obj.get k (notes db)) as [x|] eqn:Hx; [|discriminate].
  simpl in Hk. inversion Hk; subst x'. clear Hk.
  apply after_delete_links in Hin. destruct Hin as [Hin Hor].
  apply (Hs k id Hne x d Hx Hd) in Hin.
  destruct Hor as [Hc | Hc]; [apply Hc; reflexivity | exact (Hc Hin)].
Qed.

Lemma delete_leaves_no_forward_link_witness :
  exists db',
    snd (server (Sample.env Sample.idX) (DELETE_note Sample.idA)
           (Some Sample.linked)) = Some db'
    /\ forall k x', Obj.get k (notes db') = Some x' ->
                    ~ In Sample.idA (Note.links x').
Proof.
  exact (delete_leaves_no_forward_link None Sample.trace_linked Sample.linked
           (Sample.env Sample.idX) Sample.idA Sample.noteA
           eq_refl eq_refl eq_refl eq_refl).
Defined.

(** ** The daily note, twice *)

Lemma find_title_set (t : string) id n (ns : Obj.t Note.t) :
  Note.title n = t ->
  find (fun note => String.eqb (Note.title note) t) (Obj.values ns) = None ->
  find (fun note => String.eqb (Note.title note) t)
    (Obj.values (Obj.set id n ns)) = Some n.
Proof.
  intros Ht. induction ns as [|[k v] r IH]; simpl.
  - intros _. rewrite Ht, String.eqb_refl. reflexivity.
  - destruct (String.eqb (Note.title v) t) eqn:E; [discriminate|].
    intros H. destruct (String.eqb k id); simpl.
    + rewrite Ht, String.eqb_refl. reflexivity.
    + rewrite E. apply IH, H.
Qed.

(** After [GET /api/notes/daily] the file holds a note with the title of
    the day. *)
Lemma daily_note_stored env disk :
  exists db1 n,
    snd (server env GET_notes_daily disk) = Some db1
    /\ find (fun note =>
               String.eqb (Note.title note)
                 (dailyNoteTitle (before_T (toISOString env 0))))
         (Obj.values (notes db1)) = Some n.
Proof.
  unfold server.
  destruct (readDB disk) as [db d1] eqn:Er.
  assert (Hd1 : d1 = Some db).
  { destruct disk; simpl in Er; inversion Er; reflexivity. }
  subst d1. unfold route, daily_note.
  destruct (find _ (Obj.values (notes db))) as [n|] eqn:Ef; simpl.
  - exists db, n. split; [reflexivity | exact Ef].
  - eexists _, _. split; [reflexivity|]. simpl.
    apply find_title_set; [reflexivity | exact Ef].
Qed.

(** X16: [GET /api/notes/daily] creates at most one note per day: after
    one such request, a second one on the same day answers 200 with a note
    that carries the day's title, and writes nothing. *)
Theorem daily_note_once_per_day :
  forall env1 env2 disk,
    before_T (toISOString env2 0) = before_T (toISOString env1 0) ->
    let disk1 := snd (server env1 GET_notes_daily disk) in
    exists n,
      server env2 GET_notes_daily disk1 = (mkResponse 200 (JNote n), disk1)
      /\ Note.title n = dailyNoteTitle (before_T (toISOString env1 0)).
Proof.
  intros env1 env2 disk Hday disk1.
  destruct (daily_note_stored env1 disk) as [db1 [n [Hd Hf]]].
  unfold disk1. rewrite Hd. exists n. split.
  - unfold server, readDB, route, daily_note. rewrite Hday, Hf. reflexivity.
  - apply find_some in Hf. apply String.eqb_eq, Hf.
Qed.

Lemma daily_note_once_per_day_witness :
  exists n,
    server (Sample.env Sample.idB) GET_notes_daily
      (snd (server (Sample.env Sample.idA) GET_notes_daily None))
    = (mkResponse 200 (JNote n),
       snd (server (Sample.env Sample.idA) GET_notes_daily None))
    /\ Note.title n = "Daily Note: 2024-05-17".
Proof.
  exact (daily_note_once_per_day (Sample.env Sample.idA)
           (Sample.env Sample.idB) None eq_refl).
Defined.

(** ** Invariants of the stored notes *)

Lemma or_else_cases v d : or_else v d = d \/ or_else v d <> "".
Proof.
  destruct v as [s|]; simpl; [|left; reflexivity].
  destruct (String.eqb_spec s ""); [left; reflexivity | right; assumption].
Qed.

Lemma truthy_or_else v d : truthy v = true -> or_else v d <> "".
Proof.
  destruct v as [s|]; simpl; [|discriminate].
  destruct (String.eqb_spec s ""); [discriminate | intros _; assumption].
Qed.

Section NoteInvariant.

(** A property of the record stored under a key, closed under what the
    handlers do to a record. *)
Variable P : string -> Note.t -> Prop.

Hypothesis P_created :
  forall id title content created updated,
    title <> "" ->
    let n := Note.mk id title content created updated [] [] in
    P id (after_update id content n id n).

Hypothesis P_daily :
  forall id today created updated,
    P id (Note.mk id (dailyNoteTitle today)
            ("# " ++ today ++ newline ++ newline) created updated [] []).

Hypothesis P_target :
  forall noteId newContent note k x,
    k <> noteId -> P k x -> P k (after_update noteId newContent note k x).

Hypothesis P_updated :
  forall id note title content updated (edit : bool),
    P id note ->
    title = Note.title note \/ title <> "" ->
    (edit = false -> content = Note.content note) ->
    P id (Note.set_updatedAt updated
            (Note.set_content content
               (let y := Note.set_title title note in
                if edit then after_update id content y id y else y))).

Hypothesis P_survivor :
  forall id noteToDelete k x,
    k <> id -> P k x -> P k (after_delete id noteToDelete k x).

Lemma insert_note_all_notes env b noteContent db resp db' :
  truthy (b_title b) = true ->
  all_notes P (notes db) ->
  insert_note env b noteContent db = Ok (resp, Some db') ->
  all_notes P (notes db').
Proof.
  intros Ht Hall. unfold insert_note.
  destruct (String.eqb noteContent "" && negb (truthy (b_content b)));
    [discriminate|].
  intros H. inversion H; subst. clear H. intros k x'. simpl.
  rewrite (updateLinks_get (randomUUID env) noteContent _ _ _
             (get_set_eq _ _ _)).
  destruct (string_dec k (randomUUID env)) as [->|Hne].
  - rewrite get_set_eq. simpl. intros E. inversion E.
    apply P_created. apply truthy_or_else, Ht.
  - rewrite get_set_ne by exact Hne.
    destruct (Obj.get k (notes db)) as [x|] eqn:Hx; [|discriminate].
    simpl. intros E. inversion E. apply P_target; [exact Hne|].
    apply (Hall k x Hx).
Qed.

Lemma route_all_notes env req db resp db' :
  all_notes P (notes db) ->
  route env req db = Ok (resp, Some db') ->
  all_notes P (notes db').
Proof.
  intros Hall H.
  destruct (template_request req) eqn:Et.
  - destruct (route_frame env req db resp db' H) as [Hn _].
    rewrite (Hn Et). exact Hall.
  - destruct req as [b| |id|id b|id| | |id|b|id b|id|]; try discriminate Et;
      simpl in H.
    + discriminate.
    + unfold daily_note in H. destruct (find _ _); [discriminate|].
      inversion H; subst. clear H. intros k x'. simpl.
      destruct (string_dec k (randomUUID env)) as [->|Hne].
      * rewrite get_set_eq. intros E. inversion E. apply P_daily.
      * rewrite get_set_ne by exact Hne. apply Hall.
    + unfold read_note in H. destruct (Obj.get id (notes db)); discriminate.
    + unfold create_note in H.
      destruct (truthy (b_title b)) eqn:Ht; [|discriminate]. simpl in H.
      destruct (truthy (b_templateId b)).
      * apply templates_of_notes in H. destruct H as [ts [_ H]].
        destruct (Obj.get _ ts); [|discriminate].
        exact (insert_note_all_notes env b _ db resp db' Ht Hall H).
      * exact (insert_note_all_notes env b _ db resp db' Ht Hall H).
    + destruct (Obj.get id (notes db)) as [note|] eqn:Hn;
        [|unfold update_note in H; rewrite Hn in H; discriminate].
      destruct (update_note_get env id b db note Hn)
        as [d [note' [Hu [Hg [_ [He Hk]]]]]].
      rewrite Hu in H. inversion H; subst d. clear H.
      intros k x' Hx'.
      destruct (string_dec k id) as [->|Hne].
      * rewrite Hg in Hx'. inversion Hx'; subst x'. rewrite He.
        apply P_updated.
        -- apply (Hall id note Hn).
        -- destruct (or_else_cases (b_title b) (Note.title note)); auto.
        -- intros Hf. apply or_else_falsy, Hf.
      * destruct (truthy (b_content b)) eqn:Ec.
        -- revert Hx'. unfold update_note in Hu. rewrite Hn, Ec in Hu.
           inversion Hu. subst db'. cbn [notes set_notes updateLinks].
           rewrite get_modify_ne by exact Hne.
           rewrite (updateLinks_get id _ _
                      (Note.set_title (or_else (b_title b) (Note.title note))
                         note))
             by (rewrite get_modify_eq, Hn; reflexivity).
           rewrite get_modify_ne by exact Hne.
           destruct (Obj.get k (notes db)) as [x|] eqn:Hx; [|discriminate].
           simpl. intros E. inversion E. apply P_target; [exact Hne|].
           apply (Hall k x Hx).
        -- rewrite (Hk eq_refl k Hne) in Hx'. apply (Hall k x' Hx').
    + unfold delete_note in H.
      destruct (Obj.get id (notes db)) as [d|]; [|discriminate].
      inversion H; subst. clear H. intros k x'. simpl.
      destruct (string_dec k id) as [->|Hne];
        [rewrite deleteNote_get_eq; discriminate|].
      rewrite deleteNote_get_ne by exact Hne.
      destruct (Obj.get k (notes db)) as [x|] eqn:Hx; [|discriminate].
      simpl. intros E. inversion E. apply P_survivor; [exact Hne|].
      apply (Hall k x Hx).
    + discriminate.
Qed.

Lemma server_all_notes env req disk :
  disk_all_notes P disk -> disk_all_notes P (snd (server env req disk)).
Proof.
  intros H. unfold server.
  assert (Hr : all_notes P (notes (fst (readDB disk)))
               /\ disk_all_notes P (snd (readDB disk))).
  { destruct disk as [db|]; simpl in *; [split; exact H|].
    split; [|]; intros k x E; discriminate. }
  destruct (readDB disk) as [db d1]. simpl in Hr. destruct Hr as [Hdb Hd1].
  destruct (route env req db) as [[resp [db'|]]|e] eqn:E; simpl;
    [|exact Hd1|exact Hd1].
  exact (route_all_notes env req db resp db' Hdb E).
Qed.

Lemma run_all_notes trace start db :
  empty_start start = true ->
  run trace start = Some db ->
  all_notes P (notes db).
Proof.
  intros Hs Hr.
  assert (H0 : disk_all_notes P start).
  { destruct start as [d|]; simpl in *; [|exact I].
    destruct (notes d); [|discriminate]. intros k x E. discriminate. }
  assert (H : disk_all_notes P (run trace start)).
  { clear Hr Hs. revert start H0.
    induction trace as [|[env req] rest IH]; simpl; intros start H0;
      [exact H0|].
    apply IH, server_all_notes, H0. }
  rewrite Hr in H. exact H.
Qed.

End NoteInvariant.

Lemma after_update_backlinks_NoDup noteId newContent note k x :
  NoDup (Note.backlinks x) ->
  NoDup (Note.backlinks (after_update noteId newContent note k x)).
Proof.
  intros H. unfold after_update, adds_backlink, includes.
  set (x1 := if JsSet.has k _ then _ else x).
  assert (H1 : NoDup (Note.backlinks x1)).
  { unfold x1. destruct (JsSet.has k _); simpl; [|exact H].
    apply NoDup_filter, H. }
  clearbody x1.
  destruct (JsSet.has k _); simpl;
    destruct (negb (String.eqb k noteId)); simpl;
    try (destruct (JsSet.has noteId (Note.backlinks x1)) eqn:E; simpl);
    destruct (String.eqb noteId k); simpl; try exact H1;
    apply NoDup_snoc; try exact H1; apply has_false, E.
Qed.

Lemma after_update_links_NoDup noteId newContent note k x :
  NoDup (Note.links x) ->
  NoDup (Note.links (after_update noteId newContent note k x)).
Proof.
  intros H. rewrite after_update_links.
  destruct (String.eqb noteId k); [apply parseLinks_NoDup | exact H].
Qed.

(** X17: in every document reached from an empty collection, each note is
    stored under its own identifier and has a title that is not empty. *)
Theorem stored_notes_keep_identity :
  forall start trace db k x,
    empty_start start = true ->
    run trace start = Some db ->
    Obj.get k (notes db) = Some x ->
    Note.id x = k /\ Note.title x <> "".
Proof.
  intros start trace db k x Hs Hr Hx.
  refine (run_all_notes (fun k x => Note.id x = k /\ Note.title x <> "")
            _ _ _ _ _ trace start db Hs Hr k x Hx).
  - intros id title content created updated Ht n.
    destruct (after_update_fields id content n id n) as [-> [-> _]].
    split; [reflexivity | exact Ht].
  - intros id today created updated. split; [reflexivity | discriminate].
  - intros noteId newContent note k0 x0 _ [H1 H2].
    destruct (after_update_fields noteId newContent note k0 x0)
      as [-> [-> _]]. split; assumption.
  - intros id note title content updated edit [H1 H2] Ht _. simpl.
    destruct edit; simpl.
    + destruct (after_update_fields id content (Note.set_title title note) id
                  (Note.set_title title note)) as [-> [-> _]].
      simpl. split; [exact H1|]. destruct Ht as [-> | Ht]; assumption.
    + split; [exact H1|]. destruct Ht as [-> | Ht]; assumption.
  - intros id d k0 x0 _ [H1 H2].
    destruct (after_delete_fields id d k0 x0) as [-> [-> _]].
    split; assumption.
Qed.

Lemma stored_notes_keep_identity_witness :
  Note.id Sample.noteB = Sample.idB /\ Note.title Sample.noteB <> "".
Proof.
  exact (stored_notes_keep_identity None Sample.trace_linked Sample.linked
           Sample.idB Sample.noteB eq_refl eq_refl eq_refl).
Defined.

(** X18: in every document reached from an empty collection, the [links]
    and the [backlinks] of each note hold no identifier twice. *)
Theorem stored_arrays_are_sets :
  forall start trace db k x,
    empty_start start = true ->
    run trace start = Some db ->
    Obj.get k (notes db) = Some x ->
    NoDup (Note.links x) /\ NoDup (Note.backlinks x).
Proof.
  intros start trace db k x Hs Hr Hx.
  refine (run_all_notes
            (fun _ x => NoDup (Note.links x) /\ NoDup (Note.backlinks x))
            _ _ _ _ _ trace start db Hs Hr k x Hx).
  - intros id title content created updated _ n. split.
    + apply after_update_links_NoDup. constructor.
    + apply after_update_backlinks_NoDup. constructor.
  - intros. split; constructor.
  - intros noteId newContent note k0 x0 _ [H1 H2]. split.
    + apply after_update_links_NoDup, H1.
    + apply after_update_backlinks_NoDup, H2.
  - intros id note title content updated edit [H1 H2] _ _. simpl.
    destruct edit; simpl; [split | split; assumption].
    + apply after_update_links_NoDup, H1.
    + apply after_update_backlinks_NoDup, H2.
  - intros id d k0 x0 _ [H1 H2]. unfold after_delete.
    destruct (JsSet.has k0 (Note.backlinks d)); simpl;
      [split; [apply NoDup_filter, H1 | exact H2] | split; assumption].
Qed.

Lemma stored_arrays_are_sets_witness :
  NoDup (Note.links Sample.noteB) /\ NoDup (Note.backlinks Sample.noteB).
Proof.
  exact (stored_arrays_are_sets None Sample.trace_linked Sample.linked
           Sample.idB Sample.noteB eq_refl eq_refl eq_refl).
Defined.

(** X19: in every document reached from an empty collection, whatever
    identifiers the requests draw, no note is listed in its own
    [backlinks]. *)
Theorem no_note_backlinks_itself :
  forall start trace db k x,
    empty_start start = true ->
    run trace start = Some db ->
    Obj.get k (notes db) = Some x ->
    ~ In k (Note.backlinks x).
Proof.
  intros start trace db k x Hs Hr Hx.
  refine (run_all_notes (fun k x => ~ In k (Note.backlinks x))
            _ _ _ _ _ trace start db Hs Hr k x Hx).
  - intros id title content created updated _ n H.
    apply after_update_not_added in H. exact H.
  - intros id today created updated H. exact H.
  - intros noteId newContent note k0 x0 Hne H Hin. apply H.
    apply (after_update_backlinks_other noteId newContent note k0 x0 k0 Hne).
    exact Hin.
  - intros id note title content updated edit H _ _. simpl.
    destruct edit; simpl; [|exact H].
    intros Hin. apply after_update_not_added in Hin. exact (H Hin).
  - intros id d k0 x0 _ H. rewrite after_delete_backlinks. exact H.
Qed.

Lemma no_note_backlinks_itself_witness :
  ~ In Sample.idA (Note.backlinks Sample.noteA).
Proof.
  exact (no_note_backlinks_itself None Sample.trace_linked Sample.linked
           Sample.idA Sample.noteA eq_refl eq_refl eq_refl).
Defined.

(** X20: in every document reached from an empty collection, every
    identifier in a note's [links] is extracted from the note's current
    content.  (The converse fails after a deletion, which removes the
    deleted identifier from [links] and leaves the content alone.) *)
Theorem stored_links_come_from_content :
  forall start trace db k x,
    empty_start start = true ->
    run trace start = Some db ->
    Obj.get k (notes db) = Some x ->
    incl (Note.links x) (parseLinks (Note.content x)).
Proof.
  intros start trace db k x Hs Hr Hx.
  refine (run_all_notes
            (fun _ x => incl (Note.links x) (parseLinks (Note.content x)))
            _ _ _ _ _ trace start db Hs Hr k x Hx).
  - intros id title content created updated _ n.
    destruct (after_update_fields id content n id n) as [_ [_ [-> _]]].
    rewrite after_update_links, String.eqb_refl. apply incl_refl.
  - intros id today created updated a H. destruct H.
  - intros noteId newContent note k0 x0 Hne H.
    destruct (after_update_fields noteId newContent note k0 x0)
      as [_ [_ [-> _]]].
    rewrite after_update_links.
    destruct (String.eqb_spec noteId k0) as [E|_]; [congruence | exact H].
  - intros id note title content updated edit H _ Hc. simpl.
    destruct edit; simpl.
    + rewrite after_update_links, String.eqb_refl. apply incl_refl.
    + rewrite (Hc eq_refl). exact H.
  - intros id d k0 x0 _ H.
    destruct (after_delete_fields id d k0 x0) as [_ [_ [-> _]]].
    intros a Ha. apply after_delete_links in Ha. apply H, Ha.
Qed.

Lemma stored_links_come_from_content_witness :
  incl (Note.links Sample.noteB) (parseLinks (Note.content Sample.noteB)).
Proof.
  exact (stored_links_come_from_content None Sample.trace_linked Sample.linked
           Sample.idB Sample.noteB eq_refl eq_refl eq_refl).
Defined.

(** The converse of X20 fails after a deletion: B references A, A is
    deleted, and B's content still extracts to A while B's [links] are
    empty. *)
Example links_lag_content_after_delete :
  let disk := run (Sample.trace_linked
                   ++ [(Sample.env Sample.idX, DELETE_note Sample.idA)])
                None in
  links_of disk Sample.idB = Some []
  /\ parseLinks (Note.content Sample.noteB) = [Sample.idA].
Proof. split; reflexivity. Qed.

(** ** What [updateLinks] touches *)



(** X22: the backlink entries [updateLinks] writes.  For a stored note
    [k] other than [noteId]: if the new content references [k] and the old
    [links] did not, [noteId] is in [k]'s [backlinks] afterwards; if the
    old [links] held [k] and the new content does not reference it,
    [noteId] is not in [k]'s [backlinks] afterwards; and if [k] is in both
    or in neither, the presence of [noteId] in [k]'s [backlinks] is as it
    was, missing entries included. *)
Theorem updateLinks_backlink_diff :
  forall noteId newContent db note k x,
    Obj.get noteId (notes db) = Some note ->
    Obj.get k (notes db) = Some x ->
    k <> noteId ->
    exists x',
      Obj.get k (notes (updateLinks noteId newContent db)) = Some x'
      /\ (In k (parseLinks newContent) -> ~ In k (Note.links note) ->
          In noteId (Note.backlinks x'))
      /\ (In k (Note.links note) -> ~ In k (parseLinks newContent) ->
          ~ In noteId (Note.backlinks x'))
      /\ ((In k (Note.links note) <-> In k (parseLinks newContent)) ->
          (In noteId (Note.backlinks x') <-> In noteId (Note.backlinks x))).
Proof.
  intros noteId newContent db note k x Hn Hx Hk. simpl.
  rewrite (updateLinks_get noteId newContent (notes db) note k Hn), Hx.
  exists (after_update noteId newContent note k x).
  split; [reflexivity|].
  rewrite after_update_backlinks_self. tauto.
Qed.

Lemma updateLinks_backlink_diff_witness :
  exists x',
    Obj.get Sample.idA
      (notes (updateLinks Sample.idB "nothing" Sample.linked)) = Some x'
    /\ ~ In Sample.idB (Note.backlinks x').
Proof.
  destruct (updateLinks_backlink_diff Sample.idB "nothing" Sample.linked
              Sample.noteB Sample.idA Sample.noteA eq_refl eq_refl)
    as [x' [H [_ [Hr _]]]]; [discriminate|].
  exists x'. split; [exact H|].
  apply Hr; [left; reflexivity | intros []].
Defined.

(** ** The extractor, exactly *)

Lemma marker_append g r :
  (marker g ++ r)%string
  = String "[" (String "[" (g ++ String "]" (String "]" r))).
Proof. unfold marker. simpl. rewrite append_assoc. reflexivity. Qed.

Lemma exec_inv s g r :
  exec s = Some (g, r) ->
  link_id g = true /\ exists pre, s = (pre ++ marker g ++ r)%string.
Proof.
  induction s as [|c t IH]; rewrite exec_unfold.
  - discriminate.
  - destruct (match_here (String c t)) as [[g' r']|] eqn:E.
    + intros H. inversion H; subst. apply match_here_inv in E.
      destruct E as [E Hg]. split; [exact Hg|].
      exists ""%string. rewrite marker_append. exact E.
    + intros H. destruct (IH H) as [Hg [pre ->]]. split; [exact Hg|].
      exists (String c pre). reflexivity.
Qed.

Lemma parseLoop_sound id s :
  forall links,
    In id (parseLoop s links) ->
    In id links
    \/ (link_id id = true
        /\ exists pre post, s = (pre ++ marker id ++ post)%string).
Proof.
  remember (String.length s) as n eqn:Hn. revert s Hn.
  induction n as [n IH] using lt_wf_ind. intros s Hn links.
  rewrite parseLoop_step.
  destruct (exec s) as [[g r]|] eqn:E; [|tauto].
  intros H. destruct (exec_inv s g r E) as [Hg [pre0 Hs]].
  apply (IH (String.length r)) in H;
    [|rewrite Hn; apply (exec_length s g r E) | reflexivity].
  destruct H as [H | [Hid [pre [post Hr]]]].
  - apply In_add in H. destruct H as [H | ->]; [left; exact H|].
    right. split; [exact Hg|]. exists pre0, r. exact Hs.
  - right. split; [exact Hid|].
    exists (pre0 ++ marker g ++ pre)%string, post.
    rewrite Hs, Hr, !append_assoc. reflexivity.
Qed.

(** X23: [parseLinks] extracts exactly the identifiers of the markers of
    the content: an identifier is returned if and only if it is a string of
    one or more characters among [a-f], [A-F], [0-9] and [-] and the
    content holds it between [[[] and []]]. *)
Theorem parseLinks_exact :
  forall content id,
    In id (parseLinks content)
    <-> link_id id = true
        /\ exists pre post, content = (pre ++ marker id ++ post)%string.
Proof.
  intros content id. split.
  - intros H. apply parseLoop_sound in H. destruct H as [[] | H]. exact H.
  - intros [Hid [pre [post ->]]]. apply parseLinks_marker, Hid.
Qed.

Lemma filter_filter_and {T : Type} (f h : T -> bool) l :
  filter f (filter h l) = filter (fun x => h x && f x) l.
Proof.
  induction l as [|a l IH]; simpl; [reflexivity|].
  destruct (h a); simpl; [destruct (f a); rewrite IH |]; auto.
Qed.

Lemma has_app x a b : JsSet.has x (a ++ b) = JsSet.has x a || JsSet.has x b.
Proof.
  induction a as [|y a IH]; simpl; [reflexivity|].
  destruct (String.eqb y x); [reflexivity | exact IH].
Qed.

(** The loop started with some members already in the set. *)
Lemma parseLoop_from s :
  forall links,
    parseLoop s links
    = links ++ filter (fun x => negb (JsSet.has x links)) (parseLoop s []).
Proof.
  remember (String.length s) as n eqn:Hn. revert s Hn.
  induction n as [n IH] using lt_wf_ind. intros s Hn links.
  rewrite (parseLoop_step s links), (parseLoop_step s []).
  destruct (exec s) as [[g r]|] eqn:E; [|simpl; rewrite app_nil_r; reflexivity].
  assert (Hlt : String.length r < n)
    by (rewrite Hn; apply (exec_length s g r E)).
  rewrite (IH _ Hlt r eq_refl (JsSet.add g links)).
  rewrite (IH _ Hlt r eq_refl (JsSet.add g [])).
  unfold JsSet.add. simpl.
  destruct (JsSet.has g links) eqn:Eg; simpl.
  - rewrite filter_filter_and. f_equal. apply filter_ext_in.
    intros x _. destruct (String.eqb_spec g x) as [<-|_]; simpl.
    + rewrite Eg. reflexivity.
    + reflexivity.
  - rewrite <- app_assoc. simpl. f_equal. f_equal.
    rewrite filter_filter_and. apply filter_ext. intros x.
    rewrite has_app. simpl.
    destruct (JsSet.has x links); destruct (String.eqb g x); reflexivity.
Qed.

(** X24: the extracted identifiers are in the order of their first
    occurrence: a content that begins with the marker of [id] extracts to
    [id] followed by what the rest extracts to, without [id]; and a leading
    character other than [[] changes nothing. *)
Theorem parseLinks_first_occurrence_order :
  forall id c rest,
    link_id id = true -> c <> "["%char ->
    parseLinks (marker id ++ rest)
    = id :: filter (fun x => negb (String.eqb id x)) (parseLinks rest)
    /\ parseLinks (String c rest) = parseLinks rest.
Proof.
  intros id c rest Hid Hc. unfold parseLinks. split.
  - rewrite parseLoop_step, (exec_marker_here id rest Hid).
    rewrite parseLoop_from. unfold JsSet.add. simpl. f_equal.
    apply filter_ext. intros x. destruct (String.eqb id x); reflexivity.
  - rewrite (parseLoop_step (String c rest)), (parseLoop_step rest).
    rewrite exec_skip; [reflexivity|].
    apply Ascii.eqb_neq, Hc.
Qed.

Lemma parseLinks_first_occurrence_order_witness :
  parseLinks (marker "b2" ++ " [[a1]] [[b2]]") = ["b2"; "a1"].
Proof.
  assert (H : "x"%char <> "["%char) by discriminate.
  exact (proj1 (parseLinks_first_occurrence_order "b2" "x" " [[a1]] [[b2]]"
                  eq_refl H)).
Defined.

(** ** The order of the stored notes *)

Lemma keys_modify {A : Type} k (f : A -> A) (o : Obj.t A) :
  map fst (Obj.modify k f o) = map fst o.
Proof.
  induction o as [|[k' v] r IH]; simpl; [reflexivity|].
  destruct (String.eqb k' k); simpl; [reflexivity | now rewrite IH].
Qed.

Lemma keys_del {A : Type} k (o : Obj.t A) :
  map fst (Obj.del k o)
  = filter (fun k' => negb (String.eqb k' k)) (map fst o).
Proof.
  induction o as [|[k' v] r IH]; simpl; [reflexivity|].
  destruct (String.eqb k' k); simpl; [exact IH | now rewrite IH].
Qed.

Lemma keys_fold_modify (step : Obj.t Note.t -> string -> Obj.t Note.t) l :
  (forall ns t, map fst (step ns t) = map fst ns) ->
  forall ns, map fst (fold_left step l ns) = map fst ns.
Proof.
  intros Hstep. induction l as [|t l IH]; simpl; intros ns; [reflexivity|].
  rewrite IH. apply Hstep.
Qed.

Lemma keys_updateLinks noteId newContent ns :
  map fst (updateLinks_notes noteId newContent ns) = map fst ns.
Proof.
  unfold updateLinks_notes.
  destruct (Obj.get noteId ns) as [note|]; [|reflexivity].
  rewrite keys_modify.
  rewrite keys_fold_modify.
  - rewrite keys_fold_modify; [reflexivity|].
    intros ns' target. unfold removeBacklink.
    destruct (Obj.get target ns'); [apply keys_modify | reflexivity].
  - intros ns' target. unfold addBacklink.
    destruct (Obj.get target ns'); [|reflexivity].
    destruct (negb (String.eqb target noteId)); [|reflexivity].
    destruct (negb (includes _ _)); [apply keys_modify | reflexivity].
Qed.

Lemma keys_deleteNote id d ns :
  map fst (deleteNote_notes id d ns)
  = filter (fun k' => negb (String.eqb k' id)) (map fst ns).
Proof.
  unfold deleteNote_notes. rewrite keys_del. f_equal.
  apply keys_fold_modify. intros ns' source. unfold removeLink.
  destruct (Obj.get source ns'); [apply keys_modify | reflexivity].
Qed.

(** X25: the notes stay in the order of their creation, which is the
    order [GET /api/notes] lists them in: a creation under an identifier
    that is not stored yet puts the new note last, an update moves nothing,
    and a deletion takes the deleted note out and moves nothing else. *)
Theorem stored_order :
  forall env db,
    (forall title content,
        Obj.get (randomUUID env) (notes db) = None ->
        map fst (notes (created env title content db))
        = map fst (notes db) ++ [randomUUID env])
    /\ (forall id b resp db',
           update_note env id b db = Ok (resp, Some db') ->
           map fst (notes db') = map fst (notes db))
    /\ (forall id resp db',
           delete_note id db = Ok (resp, Some db') ->
           map fst (notes db')
           = filter (fun k => negb (String.eqb k id)) (map fst (notes db))).
Proof.
  intros env db. split; [|split].
  - intros title content Hf. unfold created. simpl.
    rewrite keys_updateLinks, (set_absent _ _ _ Hf), map_app. reflexivity.
  - intros id b resp db'. unfold update_note.
    destruct (Obj.get id (notes db)); [|discriminate].
    intros H. inversion H; subst. simpl. rewrite keys_modify.
    destruct (truthy (b_content b)); simpl;
      rewrite ?keys_updateLinks; apply keys_modify.
  - intros id resp db'. unfold delete_note.
    destruct (Obj.get id (notes db)) as [d|]; [|discriminate].
    intros H. inversion H; subst. simpl. apply keys_deleteNote.
Qed.

Lemma stored_order_witness :
  map fst (notes (created (Sample.env Sample.idX) "X" "late" Sample.linked))
  = [Sample.idA; Sample.idB; Sample.idX].
Proof.
  exact (proj1 (stored_order (Sample.env Sample.idX) Sample.linked)
           "X" "late" eq_refl).
Defined.

(** ** Creation and the notes it references *)

(** X26: creating a note writes its identifier into the [backlinks] of
    the stored notes its content references, and of no other: for a stored
    note [k] other than the new one, the new identifier is in [k]'s
    [backlinks] afterwards if and only if the content references [k] or the
    identifier was there before; every other entry is as before. *)
Theorem create_note_backlinks :
  forall env db title content k x,
    Obj.get k (notes db) = Some x ->
    k <> randomUUID env ->
    exists x',
      Obj.get k (notes (created env title content db)) = Some x'
      /\ (In (randomUUID env) (Note.backlinks x')
          <-> In k (parseLinks content)
              \/ In (randomUUID env) (Note.backlinks x))
      /\ (forall a, a <> randomUUID env ->
                    (In a (Note.backlinks x') <-> In a (Note.backlinks x)))
      /\ Note.links x' = Note.links x.
Proof.
  intros env db title content k x Hx Hk.
  rewrite (created_get_other env title content db k Hk), Hx. simpl.
  eexists. split; [reflexivity|]. split; [|split].
  - rewrite after_update_backlinks_self. simpl. tauto.
  - intros a Ha. apply after_update_backlinks_other, Ha.
  - rewrite after_update_links.
    destruct (String.eqb_spec (randomUUID env) k); [congruence | reflexivity].
Qed.

Lemma create_note_backlinks_witness :
  exists x',
    Obj.get Sample.idA
      (notes (created (Sample.env Sample.idX) "X" (marker Sample.idA)
                Sample.linked)) = Some x'
    /\ In Sample.idX (Note.backlinks x').
Proof.
  destruct (create_note_backlinks (Sample.env Sample.idX) Sample.linked "X"
              (marker Sample.idA) Sample.idA Sample.noteA eq_refl)
    as [x' [H [Hb _]]]; [discriminate|].
  exists x'. split; [exact H|]. apply Hb. left. left. reflexivity.
Defined.

(** ** The first request *)

(** X27: whatever the first request is, it leaves a file: with no file
    yet, the file after the request holds a document without [templates]
    whose notes are none, or the one note the request created under the
    drawn identifier. *)
Theorem first_request_creates_file :
  forall env req,
    exists db,
      snd (server env req None) = Some db
      /\ templates db = None
      /\ (notes db = []
          \/ exists n, notes db = [(randomUUID env, n)]
                       /\ Note.id n = randomUUID env).
Proof.
  intros env req. unfold server, readDB.
  destruct (route env req initialDb) as [[resp [db'|]]|e] eqn:E; simpl;
    [|exists initialDb; auto|exists initialDb; auto].
  exists db'. split; [reflexivity|].
  destruct (template_request req) eqn:Et.
  - exfalso. revert E.
    destruct req; try discriminate; unfold route, create_template,
      list_templates, read_template, update_template, delete_template,
      templates_of, respond; split_handler; discriminate.
  - destruct (route_frame env req initialDb resp db' E) as [_ Hk].
    split; [rewrite (Hk Et); reflexivity|]. clear Hk.
    destruct req as [b| |id|id b|id| | |id|b|id b|id|]; try discriminate;
      simpl in E.
    + inversion E; subst. right. eexists. split; reflexivity.
    + unfold create_note in E.
      destruct (negb (truthy (b_title b))); [discriminate|].
      destruct (truthy (b_templateId b)); [discriminate|].
      unfold insert_note in E.
      destruct (_ && _); [discriminate|].
      inversion E; subst. right. simpl.
      unfold updateLinks_notes. simpl. rewrite String.eqb_refl. simpl.
      set (l := JsSet.of_array _). clearbody l.
      assert (Hf : forall (l' : list string) ns,
                 ns = [(randomUUID env,
                        Note.mk (randomUUID env) (or_else (b_title b) "")
                          (or_else (b_content b) "") (toISOString env 0)
                          (toISOString env 1) [] [])] ->
                 fold_left (addBacklink (randomUUID env)) l' ns = ns).
      { induction l' as [|t l' IH]; simpl; intros ns Hns; [reflexivity|].
        assert (Ha : addBacklink (randomUUID env) ns t = ns).
        { subst ns. unfold addBacklink. simpl.
          destruct (String.eqb_spec (randomUUID env) t) as [<-|_];
            [rewrite String.eqb_refl|]; reflexivity. }
        rewrite Ha. apply IH, Hns. }
      rewrite (Hf _ _ eq_refl). simpl. rewrite String.eqb_refl.
      eexists. split; reflexivity.
Qed.
